(** * Sleuth's log table: the filter / search / sort pipeline

    A shallow embedding of the [LogTable] component
    (renderer/components/logtable.tsx) and of the header cell that drives
    its sorting (renderer/components/logtable-headercell.tsx).

    JavaScript arrays are objects with identity that the component shares,
    compares with [!==] and sorts or reverses in place, so they live in an
    explicit store and the methods of the component are written in a small
    state-and-exception monad over that store.  The [debug] calls of the
    source are kept: they append to a log held in the same store. *)

From Stdlib Require Import String Ascii List Bool Arith Lia Sorted.
From stdpp Require Import base option list gmap strings.

Open Scope string_scope.
Open Scope list_scope.
Open Scope stdpp_scope.

(** ** JavaScript strings *)

Module Js.

(** A string is truthy when it is not empty. *)
Definition truthy (s : string) : bool :=
  match s with EmptyString => false | String _ _ => true end.

(** [a || b] on strings. *)
Definition or_else (a b : string) : string := if truthy a then a else b.

(** Truthiness of an optional string ([undefined] is falsy). *)
Definition truthy_opt (s : option string) : bool :=
  match s with Some s => truthy s | None => false end.

(** [a || b] where both sides are optional strings. *)
Definition or_else_opt (a b : option string) : option string :=
  if truthy_opt a then a else b.

(** [s.split(' ')]: cut at every single space, keeping empty pieces. *)
Fixpoint split_space (s : string) : list string :=
  match s with
  | EmptyString => [EmptyString]
  | String c s' =>
      if Ascii.eqb c " " then EmptyString :: split_space s'
      else match split_space s' with
           | [] => [String c EmptyString]
           | w :: ws => String c w :: ws
           end
  end.

(** [s.startsWith('!')] *)
Definition startsWith_bang (s : string) : bool :=
  match s with String c _ => Ascii.eqb c "!" | EmptyString => false end.

(** [s.slice(1)] *)
Definition slice1 (s : string) : string :=
  match s with String _ r => r | EmptyString => EmptyString end.

(** [a === b] on strings. *)
Definition str_eq (a b : string) : bool := bool_decide (a = b).

(** [a === 'lit'] where [a] may be [undefined]. *)
Definition opt_is (a : option string) (lit : string) : bool :=
  bool_decide (a = Some lit).

(** The property names of [Object.prototype], which every plain object
    inherits: the members of the language standard and those of its
    annex B.  Each reads as a function, or for [__proto__] as
    [Object.prototype] itself: a truthy value. *)
Definition objectPrototype : list string :=
  [ "constructor"; "hasOwnProperty"; "isPrototypeOf"; "propertyIsEnumerable";
    "toLocaleString"; "toString"; "valueOf";
    "__proto__"; "__defineGetter__"; "__defineSetter__";
    "__lookupGetter__"; "__lookupSetter__" ].

(** Whether [k] is found on the prototype of a plain object. *)
Definition inherited (k : string) : bool := bool_decide (k ∈ objectPrototype).

End Js.

(** ** What the JavaScript host provides

    [new RegExp(pattern, 'i')] either yields a regular expression or
    throws a SyntaxError ([None]).  Without the [g] and [y] flags
    [RegExp.prototype.test] keeps no position between calls, so it is a
    function of the expression and the subject.  [localeCompare] is the
    host's collation. *)

Class Host := {
  RegExp : Type;
  new_RegExp : string -> option RegExp;
  regexp_test : RegExp -> string -> bool;
  localeCompare : string -> string -> comparison
}.

(** A host to run examples on: regular expressions over ASCII built from
    literal characters, [.], [|], groups, and the quantifiers [*], [+],
    [?] (greedy or lazy), matched without regard to case; comparison by
    character code.  Character classes, braces, anchors and escapes other
    than of a syntax character are outside this fragment and this parser
    rejects them; the examples below stay inside the fragment. *)

Module AsciiHost.

Inductive re : Type :=
  | ReNone
  | ReEps
  | ReChar (c : ascii)
  | ReDot
  | ReAll
  | ReCat (a b : re)
  | ReAlt (a b : re)
  | ReStar (a : re).

Definition is_syntax (c : ascii) : bool :=
  existsb (Ascii.eqb c)
    ["^"; "$"; "\"; "."; "*"; "+"; "?"; "("; ")"; "["; "]"; "{"; "}"; "|"]%char.

(** An optional [?] after a quantifier makes it lazy, which [test] cannot
    observe. *)
Definition skip_lazy (s : list ascii) : list ascii :=
  match s with
  | "?"%char :: s' => s'
  | _ => s
  end.

Definition quantifier (r : re) (s : list ascii) : re * list ascii :=
  match s with
  | "*"%char :: s' => (ReStar r, skip_lazy s')
  | "+"%char :: s' => (ReCat r (ReStar r), skip_lazy s')
  | "?"%char :: s' => (ReAlt ReEps r, skip_lazy s')
  | _ => (r, s)
  end.

(** Disjunction ::= Alternative ('|' Disjunction)?
    Alternative ::= Term*
    Term        ::= Atom Quantifier?
    Atom        ::= char | '.' | '\' syntax-char | '(' Disjunction ')' *)
Fixpoint disjunction (fuel : nat) (s : list ascii) : option (re * list ascii) :=
  match fuel with
  | 0 => None
  | S fuel =>
      match alternative fuel s with
      | Some (a, "|"%char :: s') =>
          match disjunction fuel s' with
          | Some (b, s'') => Some (ReAlt a b, s'')
          | None => None
          end
      | other => other
      end
  end
with alternative (fuel : nat) (s : list ascii) : option (re * list ascii) :=
  match fuel with
  | 0 => None
  | S fuel =>
      match s with
      | [] => Some (ReEps, s)
      | "|"%char :: _ => Some (ReEps, s)
      | ")"%char :: _ => Some (ReEps, s)
      | _ =>
          match term fuel s with
          | Some (t, s') =>
              match alternative fuel s' with
              | Some (a, s'') => Some (ReCat t a, s'')
              | None => None
              end
          | None => None
          end
      end
  end
with term (fuel : nat) (s : list ascii) : option (re * list ascii) :=
  match fuel with
  | 0 => None
  | S fuel =>
      match s with
      | [] => None
      | "("%char :: s' =>
          match disjunction fuel s' with
          | Some (r, ")"%char :: s'') => Some (quantifier r s'')
          | _ => None
          end
      | "."%char :: s' => Some (quantifier ReDot s')
      | "\"%char :: c :: s' =>
          if is_syntax c then Some (quantifier (ReChar c) s') else None
      | c :: s' =>
          if is_syntax c then None else Some (quantifier (ReChar c) s')
      end
  end.

Definition compile (pattern : string) : option re :=
  let s := list_ascii_of_string pattern in
  match disjunction (3 * (length s + 1)) s with
  | Some (r, []) => Some r
  | _ => None
  end.

Definition lower (c : ascii) : ascii :=
  let n := nat_of_ascii c in
  if Nat.leb 65 n && Nat.leb n 90 then ascii_of_nat (n + 32) else c.

Definition line_terminator (c : ascii) : bool :=
  Ascii.eqb c "010" || Ascii.eqb c "013".

Fixpoint nullable (r : re) : bool :=
  match r with
  | ReNone | ReChar _ | ReDot | ReAll => false
  | ReEps | ReStar _ => true
  | ReCat a b => nullable a && nullable b
  | ReAlt a b => nullable a || nullable b
  end.

(** Brzozowski derivative: what is left of [r] after reading [c]. *)
Fixpoint deriv (c : ascii) (r : re) : re :=
  match r with
  | ReNone | ReEps => ReNone
  | ReChar d => if Ascii.eqb (lower c) (lower d) then ReEps else ReNone
  | ReDot => if line_terminator c then ReNone else ReEps
  | ReAll => ReEps
  | ReCat a b =>
      if nullable a then ReAlt (ReCat (deriv c a) b) (deriv c b)
      else ReCat (deriv c a) b
  | ReAlt a b => ReAlt (deriv c a) (deriv c b)
  | ReStar a => ReCat (deriv c a) (ReStar a)
  end.

Definition matches (r : re) (s : string) : bool :=
  nullable (fold_left (fun r c => deriv c r) (list_ascii_of_string s) r).

(** [test] looks for a match anywhere in the subject. *)
Definition test (r : re) (s : string) : bool :=
  matches (ReCat (ReStar ReAll) (ReCat r (ReStar ReAll))) s.

Definition codeCompare (a b : string) : comparison := String.compare a b.

End AsciiHost.

#[export] Instance ascii_host : Host := {|
  RegExp := AsciiHost.re;
  new_RegExp := AsciiHost.compile;
  regexp_test := AsciiHost.test;
  localeCompare := AsciiHost.codeCompare
|}.

(** ** Data model *)

(** A parsed log line (interfaces.ts). *)
Record LogEntry := {
  index : nat;
  timestamp : string;
  level : string;
  message : string;
  entryLogType : string
}.

#[export] Instance LogEntry_eq_dec : EqDecision LogEntry.
Proof. solve_decision. Defined.

(** The level filter is a plain object from level names to booleans. *)
Abbreviation LevelFilter := (gmap string bool).

(** [Object.keys(filter)] *)
Definition keys (filter : LevelFilter) : list string := (map_to_list filter).*1.

(** [filter[k]] used as a condition.  The read looks for an own key
    first and then along the prototype chain: a key the filter has reads
    its boolean, a name inherited from [Object.prototype] reads a truthy
    value, and any other key reads [undefined], which is falsy. *)
Definition get (filter : LevelFilter) (k : string) : bool :=
  match filter !! k with
  | Some v => v
  | None => Js.inherited k
  end.

(** Arrays are referred to by their address in the store. *)
Abbreviation ref := nat.

(** A processed or merged log file: its logical type and its entries. *)
Record LogFile := {
  logType : string;
  logEntries : ref
}.

#[export] Instance LogFile_eq_dec : EqDecision LogFile.
Proof. solve_decision. Defined.

Module SORT_TYPES.

Definition ASC : string := "ASC".

Definition DESC : string := "DESC".

End SORT_TYPES.

Record LogTableProps := {
  logFile : option LogFile;
  levelFilter : option LevelFilter;
  search : option string;
  dateTimeFormat : string;
  showOnlySearchResults : bool;
  searchIndex : nat
}.

Record LogTableState := {
  sortedList : ref;
  searchList : ref;
  selectedIndex : option nat;
  sortBy : option string;
  sortDirection : option string;
  ignoreSearchIndex : bool
}.

Record SortFilterListOptions := {
  optSortBy : option string;
  optSortDirection : option string;
  optFilter : option LevelFilter;
  optSearch : option string;
  optLogFile : option LogFile;
  optShowOnlySearchResults : option bool
}.

(** [{}] *)
Definition noOptions : SortFilterListOptions :=
  {| optSortBy := None; optSortDirection := None; optFilter := None;
     optSearch := None; optLogFile := None; optShowOnlySearchResults := None |}.

(** The component instance: [this.props] and [this.state]. *)
Record LogTable := {
  props : LogTableProps;
  state : LogTableState
}.

(** The part of the shared application state the table writes to. *)
Record SleuthState := {
  selectedEntry : option LogEntry;
  isDetailsVisible : bool
}.

(** ** The store and the monad *)

Record World := {
  entryArrays : list (list LogEntry);
  numberArrays : list (list nat);
  debugLog : list string;
  sleuth : SleuthState
}.

Inductive Exn :=
  | SyntaxError (pattern : string)
  | TypeError.

Inductive Res (A : Type) :=
  | Ok (a : A)
  | Throw (e : Exn).
Arguments Ok {A} a.
Arguments Throw {A} e.

Definition M (A : Type) : Type := World -> Res A * World.

Definition run {A} (m : M A) (w : World) : Res A * World := m w.

#[export] Instance M_ret : MRet M := fun A a w => (Ok a, w).

#[export] Instance M_bind : MBind M := fun A B f m w =>
  match m w with
  | (Ok a, w') => f a w'
  | (Throw e, w') => (Throw e, w')
  end.

Definition throw {A} (e : Exn) : M A := fun w => (Throw e, w).

Definition set_entryArrays (h : list (list LogEntry)) (w : World) : World :=
  {| entryArrays := h; numberArrays := numberArrays w;
     debugLog := debugLog w; sleuth := sleuth w |}.

Definition set_numberArrays (h : list (list nat)) (w : World) : World :=
  {| entryArrays := entryArrays w; numberArrays := h;
     debugLog := debugLog w; sleuth := sleuth w |}.

Definition set_debugLog (l : list string) (w : World) : World :=
  {| entryArrays := entryArrays w; numberArrays := numberArrays w;
     debugLog := l; sleuth := sleuth w |}.

Definition set_sleuth (s : SleuthState) (w : World) : World :=
  {| entryArrays := entryArrays w; numberArrays := numberArrays w;
     debugLog := debugLog w; sleuth := s |}.

(** What an array holds; an address nothing was allocated at holds
    nothing. *)
Definition entriesAt (w : World) (r : ref) : list LogEntry :=
  default [] (entryArrays w !! r).

Definition numbersAt (w : World) (r : ref) : list nat :=
  default [] (numberArrays w !! r).

Definition newEntryArray (l : list LogEntry) : M ref := fun w =>
  (Ok (length (entryArrays w)), set_entryArrays (entryArrays w ++ [l]) w).

Definition readEntries (r : ref) : M (list LogEntry) := fun w =>
  (Ok (entriesAt w r), w).

Definition writeEntries (r : ref) (l : list LogEntry) : M unit := fun w =>
  (Ok tt, set_entryArrays (<[r := l]> (entryArrays w)) w).

Definition newNumberArray (l : list nat) : M ref := fun w =>
  (Ok (length (numberArrays w)), set_numberArrays (numberArrays w ++ [l]) w).

Definition readNumbers (r : ref) : M (list nat) := fun w =>
  (Ok (numbersAt w r), w).

(** [debug(msg)] *)
Definition debug (msg : string) : M unit := fun w =>
  (Ok tt, set_debugLog (debugLog w ++ [msg]) w).

(** Assignment to the fields of the shared application state. *)
Definition assignSleuth (s : SleuthState) : M unit := fun w =>
  (Ok tt, set_sleuth s w).

(** [xs.forEach(f)] over a JavaScript value that is not shared: a left to
    right loop threading the variables the callback assigns. *)
Fixpoint forEach {A S} (f : S -> A -> M S) (xs : list A) (s : S) : M S :=
  match xs with
  | [] => mret s
  | x :: xs' => s' ← f s x; forEach f xs' s'
  end.

(** ** Array methods *)

(** [list.filter(p)]: a new array. *)
Definition Array_filter (p : LogEntry -> bool) (list : ref) : M ref :=
  l ← readEntries list; newEntryArray (List.filter p l).

(** [list.concat()]: a copy. *)
Definition Array_concat (list : ref) : M ref :=
  l ← readEntries list; newEntryArray l.

(** [list.reverse()]: in place. *)
Definition Array_reverse (list : ref) : M ref :=
  l ← readEntries list; writeEntries list (rev l);; mret list.

(** Insertion into a sorted list, after the elements that compare equal. *)
Fixpoint insert_sorted {A} (cmp : A -> A -> comparison) (x : A) (l : list A) : list A :=
  match l with
  | [] => [x]
  | y :: l' =>
      match cmp x y with
      | Lt => x :: l
      | _ => y :: insert_sorted cmp x l'
      end
  end.

Definition sorted_by {A} (cmp : A -> A -> comparison) (l : list A) : list A :=
  fold_left (fun acc x => insert_sorted cmp x acc) l [].

(** [list.sort(cmp)]: in place, returns the array itself. *)
Definition Array_sort (cmp : LogEntry -> LogEntry -> comparison) (list : ref) : M ref :=
  l ← readEntries list; writeEntries list (sorted_by cmp l);; mret list.

(** [foundIndices.push(i)] *)
Definition Array_push (arr : ref) (i : nat) : M unit := fun w =>
  (Ok tt, set_numberArrays (<[arr := numbersAt w arr ++ [i]]> (numberArrays w)) w).

(** One call of a [forEach] callback per element, with its position. *)
Fixpoint eachFrom (f : LogEntry -> nat -> M unit) (i : nat) (l : list LogEntry) : M unit :=
  match l with
  | [] => mret tt
  | a :: l' => f a i;; eachFrom f (S i) l'
  end.

(** [list.forEach(f)] *)
Definition Array_forEach (f : LogEntry -> nat -> M unit) (list : ref) : M unit :=
  l ← readEntries list; eachFrom f 0 l.

(** [list.length] *)
Definition Array_length (list : ref) : M nat :=
  l ← readEntries list; mret (length l).

(** [a || b] where [a], when present, is an object. *)
Definition or_object {A} (a b : option A) : option A :=
  match a with Some _ => a | None => b end.

(** Modelled from the spec: [didFilterChange] of utils/did-filter-change,
    which is not among the sources.  The level filter counts as changed
    when it "actually changed value-by-value (not merely object
    identity)". *)
Definition didFilterChange (oldFilter newFilter : option LevelFilter) : bool :=
  negb (bool_decide (oldFilter = newFilter)).

(** ** The component *)

Definition with_sortedList (r : ref) (s : LogTableState) : LogTableState :=
  {| sortedList := r; searchList := searchList s;
     selectedIndex := selectedIndex s; sortBy := sortBy s;
     sortDirection := sortDirection s; ignoreSearchIndex := ignoreSearchIndex s |}.

Definition with_searchList (r : ref) (s : LogTableState) : LogTableState :=
  {| sortedList := sortedList s; searchList := r;
     selectedIndex := selectedIndex s; sortBy := sortBy s;
     sortDirection := sortDirection s; ignoreSearchIndex := ignoreSearchIndex s |}.

Definition with_selectedIndex (i : option nat) (s : LogTableState) : LogTableState :=
  {| sortedList := sortedList s; searchList := searchList s;
     selectedIndex := i; sortBy := sortBy s;
     sortDirection := sortDirection s; ignoreSearchIndex := ignoreSearchIndex s |}.

Definition with_sort (by_ dir : option string) (s : LogTableState) : LogTableState :=
  {| sortedList := sortedList s; searchList := searchList s;
     selectedIndex := selectedIndex s; sortBy := by_;
     sortDirection := dir; ignoreSearchIndex := ignoreSearchIndex s |}.

Definition with_ignoreSearchIndex (b : bool) (s : LogTableState) : LogTableState :=
  {| sortedList := sortedList s; searchList := searchList s;
     selectedIndex := selectedIndex s; sortBy := sortBy s;
     sortDirection := sortDirection s; ignoreSearchIndex := b |}.

(** [this.setState(...)]: the component with its state replaced. *)
Definition setState (f : LogTableState -> LogTableState) (this : LogTable) : LogTable :=
  {| props := props this; state := f (state this) |}.

Section Component.

Context `{Host}.

(** [new RegExp(pattern, 'i')] *)
Definition newRegExp (pattern : string) : M RegExp :=
  match new_RegExp pattern with
  | Some re => mret re
  | None => throw (SyntaxError pattern)
  end.

(** The test of [param.startsWith('!') && param.length > 1]. *)
Definition isExclusion (param : string) : bool :=
  Js.startsWith_bang param && Nat.ltb 1 (String.length param).

(** The search in filtering mode.  [searchRegex] is the variable the two
    callbacks close over; the loop threads it together with [list]. *)
Definition doSearchFilter (search : string) (list : ref) : M ref :=
  searchRegex ← newRegExp (Js.or_else search "");
  let doSearch (searchRegex : RegExp) (a : LogEntry) : bool :=
    negb (Js.truthy search) || regexp_test searchRegex (message a) in
  let doExclude (searchRegex : RegExp) (a : LogEntry) : bool :=
    negb (Js.truthy search) || negb (regexp_test searchRegex (message a)) in
  let searchParams := Js.split_space search in
  '(_, list) ← forEach (fun '(searchRegex, list) param =>
      if isExclusion param then
        debug ("Filter-Excluding " +:+ Js.slice1 param);;
        searchRegex ← newRegExp (Js.or_else (Js.slice1 param) "");
        list ← Array_filter (doExclude searchRegex) list;
        mret (searchRegex, list)
      else
        debug ("Filter-Searching for " +:+ param);;
        list ← Array_filter (doSearch searchRegex) list;
        mret (searchRegex, list))
    searchParams (searchRegex, list);
  mret list.

(** The search in indexing mode. *)
Definition doSearchIndex (search : string) (list : ref) : M ref :=
  searchRegex ← newRegExp (Js.or_else search "");
  foundIndices ← newNumberArray [];
  let doSearch (searchRegex : RegExp) (a : LogEntry) (i : nat) : M unit :=
    if negb (Js.truthy search) || regexp_test searchRegex (message a)
    then Array_push foundIndices i else mret tt in
  let doExclude (searchRegex : RegExp) (a : LogEntry) (i : nat) : M unit :=
    if negb (Js.truthy search) || negb (regexp_test searchRegex (message a))
    then Array_push foundIndices i else mret tt in
  let searchParams := Js.split_space search in
  forEach (fun searchRegex param =>
      if isExclusion param then
        debug ("Index-Excluding " +:+ Js.slice1 param);;
        searchRegex ← newRegExp (Js.or_else (Js.slice1 param) "");
        Array_forEach (doExclude searchRegex) list;;
        mret searchRegex
      else
        debug ("Index-Searching for " +:+ param);;
        Array_forEach (doSearch searchRegex) list;;
        mret searchRegex)
    searchParams searchRegex;;
  mret foundIndices.

(** Checks whether or not the table should filter. *)
Definition shouldFilter (this : LogTable) (filter : option LevelFilter) : bool :=
  let filter := or_object filter (levelFilter (props this)) in
  match filter with
  | None => false
  | Some filter =>
      let allEnabled := forallb (fun k => get filter k) (keys filter) in
      let allDisabled := forallb (fun k => negb (get filter k)) (keys filter) in
      negb (allEnabled || allDisabled)
  end.

(** [a.level && filter[a.level]] *)
Definition doFilter (filter : LevelFilter) (a : LogEntry) : bool :=
  Js.truthy (level a) && get filter (level a).

Definition doSortByMessage (a b : LogEntry) : comparison :=
  localeCompare (message a) (message b).

Definition doSortByLevel (a b : LogEntry) : comparison :=
  localeCompare (level a) (level b).

(** Sorts the list: filter, search, sort, reverse. *)
Definition sortFilterList (this : LogTable) (options : SortFilterListOptions) : M ref :=
  let logFile := or_object (optLogFile options) (logFile (props this)) in
  let filter := or_object (optFilter options) (levelFilter (props this)) in
  let search :=
    match optSearch options with Some s => Some s | None => search (props this) end in
  let sortBy := Js.or_else_opt (optSortBy options) (sortBy (state this)) in
  let showOnlySearchResults :=
    match optShowOnlySearchResults options with
    | Some b => b
    | None => showOnlySearchResults (props this)
    end in
  let sortDirection :=
    Js.or_else_opt (optSortDirection options) (sortDirection (state this)) in
  debug "Starting filter";;
  match logFile with
  | None => newEntryArray []
  | Some logFile =>
      let shouldFilter := shouldFilter this filter in
      let noSort :=
        (negb (Js.truthy_opt sortBy) || Js.opt_is sortBy "index")
        && (negb (Js.truthy_opt sortDirection) || Js.opt_is sortDirection SORT_TYPES.ASC) in
      if noSort && negb shouldFilter && negb (Js.truthy_opt search)
      then mret (logEntries logFile)
      else
        sortedList ← Array_concat (logEntries logFile);
        sortedList ←
          (if shouldFilter then
             match filter with
             | Some filter => Array_filter (doFilter filter) sortedList
             | None => throw TypeError
             end
           else mret sortedList);
        sortedList ←
          (match search with
           | Some search =>
               if Js.truthy search && showOnlySearchResults
               then doSearchFilter search sortedList
               else mret sortedList
           | None => mret sortedList
           end);
        sortedList ←
          (if Js.opt_is sortBy "index" || Js.opt_is sortBy "timestamp" then
             debug ("Sorting by " +:+ default "" sortBy +:+ " (aka doing nothing)");;
             mret sortedList
           else if Js.opt_is sortBy "message" then
             debug "Sorting by message";;
             Array_sort doSortByMessage sortedList
           else if Js.opt_is sortBy "level" then
             debug "Sorting by level";;
             Array_sort doSortByLevel sortedList
           else mret sortedList);
        (if Js.opt_is sortDirection SORT_TYPES.DESC then
           debug "Reversing";;
           Array_reverse sortedList;;
           mret tt
         else mret tt);;
        mret sortedList
  end.

(** The constructor: the initial state, with two fresh empty arrays. *)
Definition constructor (props : LogTableProps) : M LogTable :=
  sortedList ← newEntryArray [];
  searchList ← newNumberArray [];
  mret {| props := props;
          state := {| sortedList := sortedList; searchList := searchList;
                      selectedIndex := None; sortBy := Some "index";
                      sortDirection := Some SORT_TYPES.ASC;
                      ignoreSearchIndex := false |} |}.

(** Attempts at being smart about updates: whether React re-renders.
    [sortedList] is set by the constructor and no [setState] clears it, so
    of [newResults] only the comparison of lengths is left. *)
Definition shouldComponentUpdate (this : LogTable)
    (nextProps : LogTableProps) (nextState : LogTableState) : M bool :=
  let nextFile := logFile nextProps in
  let newSort :=
    negb (bool_decide (sortBy nextState = sortBy (state this)))
    || negb (bool_decide (sortDirection nextState = sortDirection (state this))) in
  if negb (bool_decide (selectedIndex (state this) = selectedIndex nextState))
  then mret true
  else if negb (bool_decide (dateTimeFormat (props this) = dateTimeFormat nextProps))
  then mret true
  else if newSort then mret true
  else
    let newFile :=
      match nextFile, logFile (props this) with
      | None, Some _ => true
      | Some nextFile, Some logFile =>
          negb (bool_decide (logType nextFile = logType logFile))
      | _, None => false
      end in
    newEntries ←
      match nextFile, logFile (props this) with
      | Some nextFile, Some logFile =>
          n ← Array_length (logEntries nextFile);
          m ← Array_length (logEntries logFile);
          mret (negb (Nat.eqb n m))
      | _, _ => mret false
      end;
    n ← Array_length (sortedList nextState);
    m ← Array_length (sortedList (state this));
    let newResults := negb (Nat.eqb n m) in
    if newFile || newEntries || newResults then mret true
    else if didFilterChange (levelFilter (props this)) (levelFilter nextProps)
    then mret true
    else if negb (bool_decide (searchList (state this) = searchList nextState))
            || negb (bool_decide (searchIndex (props this) = searchIndex nextProps))
    then mret true
    else mret false.

(** React's componentWillReceiveProps.  [this.props] still holds the
    previous props while it runs. *)
Definition componentWillReceiveProps (this : LogTable) (nextProps : LogTableProps) : M LogTable :=
  let searchChanged :=
    negb (bool_decide (search (props this) = search nextProps))
    || negb (bool_decide (showOnlySearchResults (props this) = showOnlySearchResults nextProps)) in
  let nextFile := logFile nextProps in
  fileChanged ←
    match logFile (props this), nextFile with
    | None, Some _ => mret true
    | Some logFile, Some nextFile =>
        n ← Array_length (logEntries logFile);
        m ← Array_length (logEntries nextFile);
        mret (negb (Nat.eqb n m)
              || negb (bool_decide (logType logFile = logType nextFile)))
    | _, None => mret false
    end;
  let nextLevelFilter := levelFilter nextProps in
  let filterChanged := didFilterChange (levelFilter (props this)) nextLevelFilter in
  let nextSearch := search nextProps in
  let searchIndex' := searchIndex (props this) in
  updated ←
    (if filterChanged || searchChanged || fileChanged then
       let sortOptions :=
         {| optShowOnlySearchResults := Some (showOnlySearchResults nextProps);
            optFilter := nextLevelFilter;
            optSearch := nextSearch;
            optLogFile := nextFile;
            optSortBy := None; optSortDirection := None |} in
       sortedList ← sortFilterList this sortOptions;
       searchList ← newNumberArray [];
       searchList ←
         (match nextSearch with
          | Some nextSearch =>
              if negb (showOnlySearchResults nextProps) && Js.truthy nextSearch then
                debug "showOnlySearchResults is false, making search list";;
                doSearchIndex nextSearch sortedList
              else mret searchList
          | None => mret searchList
          end);
       mret (setState (fun s => with_searchList searchList (with_sortedList sortedList s)) this)
     else mret this);
  if negb (bool_decide (searchIndex' = searchIndex nextProps))
  then mret (setState (with_ignoreSearchIndex false) updated)
  else mret updated.

(** What React does with new props: the hook runs, then [this.props] is
    replaced. *)
Definition receiveProps (this : LogTable) (nextProps : LogTableProps) : M LogTable :=
  this ← componentWillReceiveProps this nextProps;
  mret {| props := nextProps; state := state this |}.

(** React's componentDidMount. *)
Definition componentDidMount (this : LogTable) : M LogTable :=
  sortedList ← sortFilterList this noOptions;
  mret (setState (with_sortedList sortedList) this).

(** Handles a single click onto a row. *)
Definition onRowClick (this : LogTable) (index : nat) : M LogTable :=
  l ← readEntries (sortedList (state this));
  let selectedEntry := l !! index in
  assignSleuth {| selectedEntry := selectedEntry; isDetailsVisible := true |};;
  mret (setState (fun s => with_ignoreSearchIndex true
                             (with_selectedIndex (Some index) s)) this).

(** Handles the change of sorting direction; the header cells call it. *)
Definition onSortChange (this : LogTable) (sortBy' sortDirection' : string) : M LogTable :=
  let currentState := state this in
  let newSort :=
    negb (bool_decide (sortBy currentState = Some sortBy'))
    || negb (bool_decide (sortDirection currentState = Some sortDirection')) in
  if newSort then
    sortedList ← sortFilterList this
      {| optSortBy := Some sortBy'; optSortDirection := Some sortDirection';
         optFilter := None; optSearch := None; optLogFile := None;
         optShowOnlySearchResults := None |};
    mret (setState (fun s => with_sortedList sortedList
                               (with_sort (Some sortBy') (Some sortDirection') s)) this)
  else mret this.

(** What [renderTable] hands to the table besides callbacks: the row
    count and, unless the search cursor is ignored, the row to scroll to,
    [searchList[searchIndex] || 0]. *)
Record TableOptions := {
  rowHeight : nat;
  rowsCount : nat;
  headerHeight : nat;
  scrollToRow : option nat
}.

Definition tableOptions (this : LogTable) : M TableOptions :=
  sortedList ← readEntries (sortedList (state this));
  searchList ← readNumbers (searchList (state this));
  mret {| rowHeight := 30;
          rowsCount := length sortedList;
          headerHeight := 30;
          scrollToRow :=
            if negb (ignoreSearchIndex (state this))
            then Some (default 0 (searchList !! searchIndex (props this)))
            else None |}.

(** [render] reads [logFile.type] and, in [renderWebAppWarning],
    [logFile.logType] without a guard: with no log file in the props it
    throws a TypeError.  Of the element it returns, only the presence of
    the web app warning ([HasWarning]) is kept. *)
Definition renderWebAppWarning (this : LogTable) : M bool :=
  match logFile (props this) with
  | Some logFile => mret (Js.str_eq (logType logFile) "webapp")
  | None => throw TypeError
  end.

Definition render (this : LogTable) : M bool :=
  match logFile (props this) with
  | Some _ => renderWebAppWarning this
  | None => throw TypeError
  end.

(** Used by the table to get the className for a given row. *)
Definition rowClassNameGetter (this : LogTable) (rowIndex : nat) : M string :=
  searchList ← readNumbers (searchList (state this));
  let isSearchIndex :=
    negb (ignoreSearchIndex (state this))
    && bool_decide (searchList !! searchIndex (props this) = Some rowIndex) in
  if isSearchIndex || bool_decide (selectedIndex (state this) = Some rowIndex)
  then mret "ActiveRow"
  else if bool_decide (rowIndex ∈ searchList) then mret "HighlightRow"
  else mret "".

End Component.

(** The header cell of a column (logtable-headercell.tsx). *)
Module LogTableHeaderCell.

Definition reverseSortDirection (sortDirection : string) : string :=
  if Js.str_eq sortDirection SORT_TYPES.DESC then SORT_TYPES.ASC else SORT_TYPES.DESC.

(** A click on the header of column [sortKey] of table [table]. *)
Definition onSortChange `{Host} (sortKey : string) (table : LogTable) : M LogTable :=
  onSortChange table sortKey
    (match sortDirection (state table) with
     | Some d => if Js.truthy d then reverseSortDirection d else SORT_TYPES.DESC
     | None => SORT_TYPES.DESC
     end).

(** The arrow [render] puts after the title of column [sortKey]. *)
Definition sortIndicator (sortKey : string) (table : LogTable) : string :=
  if Js.truthy_opt (sortDirection (state table))
     && bool_decide (sortBy (state table) = Some sortKey)
  then (if Js.opt_is (sortDirection (state table)) SORT_TYPES.DESC then "↓" else "↑")
  else "".

End LogTableHeaderCell.

(** * Specification

    Everything below talks about the embedding above: how to read a
    result off a run, functional models of the loops and of the
    pipeline, and the conditions the component compares. *)

(** ** Reading results off a run *)

(** The records of the array a computation returns. *)
Definition evalEntries (m : M ref) (w : World) : Res (list LogEntry) :=
  match run m w with
  | (Ok r, w') => Ok (entriesAt w' r)
  | (Throw e, _) => Throw e
  end.

(** The positions in the array a computation returns. *)
Definition evalNumbers (m : M ref) (w : World) : Res (list nat) :=
  match run m w with
  | (Ok r, w') => Ok (numbersAt w' r)
  | (Throw e, _) => Throw e
  end.

Definition isOk {A} (r : Res A) : bool :=
  match r with Ok _ => true | Throw _ => false end.

Definition res_bind {A B} (r : Res A) (f : A -> Res B) : Res B :=
  match r with
  | Ok a => f a
  | Throw e => Throw e
  end.

(** What a run may do to the store it started in: arrays that existed
    keep their address and content, the log only grows, the shared
    application state is left alone. *)
Record frame (w w' : World) : Prop := {
  frame_entries : entryArrays w `prefix_of` entryArrays w';
  frame_numbers : numberArrays w `prefix_of` numberArrays w';
  frame_log : debugLog w `prefix_of` debugLog w';
  frame_sleuth : sleuth w' = sleuth w
}.

(** The pipeline ran between [w] and [w']: the log of [w'] continues that
    of [w] with the entry every call of [sortFilterList] starts with, which
    nothing else logs. *)
Definition started (w w' : World) : Prop :=
  (debugLog w ++ ["Starting filter"]) `prefix_of` debugLog w'.

(** What a loop that only pushes on [arr] and logs may do. *)
Definition pushesOn (arr : ref) (w w' : World) : Prop :=
  entryArrays w' = entryArrays w
  /\ sleuth w' = sleuth w
  /\ debugLog w `prefix_of` debugLog w'
  /\ exists found, numberArrays w' = <[arr := found]> (numberArrays w).

(** How a run that works on a fresh array relates to its model: from the
    store [w0] on, the result is a new array holding what the model says,
    or the exception the model says. *)
Definition outcome (w0 : World) (model : Res (list LogEntry))
    (x : Res ref * World) : Prop :=
  match model, x with
  | Ok l, (Ok r, w') =>
      entriesAt w' r = l
      /\ length (entryArrays w0) <= r < length (entryArrays w')
      /\ frame w0 w'
  | Throw e, (Throw e', w') => e' = e /\ frame w0 w'
  | _, _ => False
  end.

(** ** Functional models of the two searches *)

Section Models.

Context `{Host}.

(** The loop of [doSearchFilter] on the records themselves. *)
Fixpoint filterTerms (search : string) (re : RegExp) (l : list LogEntry)
    (params : list string) : Res (list LogEntry) :=
  match params with
  | [] => Ok l
  | param :: params' =>
      if isExclusion param then
        match new_RegExp (Js.slice1 param) with
        | Some re' =>
            filterTerms search re'
              (List.filter (fun a => negb (Js.truthy search)
                                     || negb (regexp_test re' (message a))) l)
              params'
        | None => Throw (SyntaxError (Js.slice1 param))
        end
      else
        filterTerms search re
          (List.filter (fun a => negb (Js.truthy search)
                                 || regexp_test re (message a)) l)
          params'
  end.

Definition searchFilter (search : string) (l : list LogEntry) : Res (list LogEntry) :=
  match new_RegExp search with
  | Some re => filterTerms search re l (Js.split_space search)
  | None => Throw (SyntaxError search)
  end.

(** The positions of the records that satisfy [p], counted from [i]. *)
Fixpoint positionsFrom (p : LogEntry -> bool) (i : nat) (l : list LogEntry) : list nat :=
  match l with
  | [] => []
  | a :: l' => if p a then i :: positionsFrom p (S i) l' else positionsFrom p (S i) l'
  end.

(** The loop of [doSearchIndex]: what it pushes, in order. *)
Fixpoint indexTerms (search : string) (re : RegExp) (l : list LogEntry)
    (params : list string) : Res (list nat) :=
  match params with
  | [] => Ok []
  | param :: params' =>
      if isExclusion param then
        match new_RegExp (Js.slice1 param) with
        | Some re' =>
            match indexTerms search re' l params' with
            | Ok found =>
                Ok (positionsFrom (fun a => negb (Js.truthy search)
                                            || negb (regexp_test re' (message a))) 0 l
                    ++ found)
            | Throw e => Throw e
            end
        | None => Throw (SyntaxError (Js.slice1 param))
        end
      else
        match indexTerms search re l params' with
        | Ok found =>
            Ok (positionsFrom (fun a => negb (Js.truthy search)
                                        || regexp_test re (message a)) 0 l
                ++ found)
        | Throw e => Throw e
        end
  end.

Definition searchIndex_model (search : string) (l : list LogEntry) : Res (list nat) :=
  match new_RegExp search with
  | Some re => indexTerms search re l (Js.split_space search)
  | None => Throw (SyntaxError search)
  end.

(** Whether the message of [a] matches what follows the [!] of the
    exclusion term [param]. *)
Definition excludedBy (param : string) (a : LogEntry) : bool :=
  match new_RegExp (Js.slice1 param) with
  | Some re => regexp_test re (message a)
  | None => false
  end.

(** The match list componentWillReceiveProps builds for the displayed
    records [l]: the index search when the search text is highlighted, an
    empty list otherwise. *)
Definition matchList (nextProps : LogTableProps) (l : list LogEntry) : Res (list nat) :=
  match search nextProps with
  | Some nextSearch =>
      if negb (showOnlySearchResults nextProps) && Js.truthy nextSearch
      then searchIndex_model nextSearch l
      else Ok []
  | None => Ok []
  end.

(** The patterns the loops compile: what follows the [!] of each
    exclusion term. *)
Definition termsCompile (search : string) : Prop :=
  Forall (fun param => isExclusion param = true -> is_Some (new_RegExp (Js.slice1 param)))
    (Js.split_space search).

End Models.

(** ** Functional model of the pipeline *)

Section PipelineModel.

Context `{Host}.

(** The parameters [sortFilterList] settles on: those of its options that
    are given, the component's own otherwise. *)
Definition usedLogFile (this : LogTable) (o : SortFilterListOptions) : option LogFile :=
  or_object (optLogFile o) (logFile (props this)).

Definition usedFilter (this : LogTable) (o : SortFilterListOptions) : option LevelFilter :=
  or_object (optFilter o) (levelFilter (props this)).

Definition usedSearch (this : LogTable) (o : SortFilterListOptions) : option string :=
  match optSearch o with Some s => Some s | None => search (props this) end.

Definition usedSortBy (this : LogTable) (o : SortFilterListOptions) : option string :=
  Js.or_else_opt (optSortBy o) (sortBy (state this)).

Definition usedShowOnly (this : LogTable) (o : SortFilterListOptions) : bool :=
  match optShowOnlySearchResults o with
  | Some b => b
  | None => showOnlySearchResults (props this)
  end.

Definition usedSortDirection (this : LogTable) (o : SortFilterListOptions) : option string :=
  Js.or_else_opt (optSortDirection o) (sortDirection (state this)).

(** The condition of the early return. *)
Definition fastPath (this : LogTable) (o : SortFilterListOptions) : bool :=
  ((negb (Js.truthy_opt (usedSortBy this o)) || Js.opt_is (usedSortBy this o) "index")
   && (negb (Js.truthy_opt (usedSortDirection this o))
       || Js.opt_is (usedSortDirection this o) SORT_TYPES.ASC))
  && negb (shouldFilter this (usedFilter this o))
  && negb (Js.truthy_opt (usedSearch this o)).

Definition filterStage (this : LogTable) (filter : option LevelFilter)
    (l : list LogEntry) : Res (list LogEntry) :=
  if shouldFilter this filter then
    match filter with
    | Some filter => Ok (List.filter (doFilter filter) l)
    | None => Throw TypeError
    end
  else Ok l.

Definition searchStage (search : option string) (showOnly : bool)
    (l : list LogEntry) : Res (list LogEntry) :=
  match search with
  | Some search => if Js.truthy search && showOnly then searchFilter search l else Ok l
  | None => Ok l
  end.

Definition sortStage (sortBy : option string) (l : list LogEntry) : list LogEntry :=
  if Js.opt_is sortBy "index" || Js.opt_is sortBy "timestamp" then l
  else if Js.opt_is sortBy "message" then sorted_by doSortByMessage l
  else if Js.opt_is sortBy "level" then sorted_by doSortByLevel l
  else l.

Definition reverseStage (sortDirection : option string) (l : list LogEntry) : list LogEntry :=
  if Js.opt_is sortDirection SORT_TYPES.DESC then rev l else l.

(** Filter, search, sort, reverse, on the records of the log file. *)
Definition pipeline (this : LogTable) (o : SortFilterListOptions)
    (R : list LogEntry) : Res (list LogEntry) :=
  res_bind (filterStage this (usedFilter this o) R) (fun l =>
  res_bind (searchStage (usedSearch this o) (usedShowOnly this o) l) (fun l =>
  Ok (reverseStage (usedSortDirection this o) (sortStage (usedSortBy this o) l)))).

End PipelineModel.

(** ** What componentWillReceiveProps compares *)

(** [fileChanged], [searchChanged] and [filterChanged] of
    componentWillReceiveProps, read in the store [w]. *)
Definition fileChangedAt (w : World) (logFile nextFile : option LogFile) : bool :=
  match logFile, nextFile with
  | None, Some _ => true
  | Some logFile, Some nextFile =>
      negb (Nat.eqb (length (entriesAt w (logEntries logFile)))
                    (length (entriesAt w (logEntries nextFile))))
      || negb (bool_decide (logType logFile = logType nextFile))
  | _, None => false
  end.

Definition propsChangedAt (w : World) (this : LogTable) (nextProps : LogTableProps) : bool :=
  didFilterChange (levelFilter (props this)) (levelFilter nextProps)
  || (negb (bool_decide (search (props this) = search nextProps))
      || negb (bool_decide (showOnlySearchResults (props this)
                            = showOnlySearchResults nextProps)))
  || fileChangedAt w (logFile (props this)) (logFile nextProps).

(** The last statement of componentWillReceiveProps. *)
Definition cursorMoved (this : LogTable) (nextProps : LogTableProps) (this' : LogTable) : LogTable :=
  if negb (bool_decide (searchIndex (props this) = searchIndex nextProps))
  then setState (with_ignoreSearchIndex false) this'
  else this'.

(** The options [o] with the sort direction [d]. *)
Definition withDirection (d : string) (o : SortFilterListOptions) : SortFilterListOptions :=
  {| optSortBy := optSortBy o; optSortDirection := Some d;
     optFilter := optFilter o; optSearch := optSearch o;
     optLogFile := optLogFile o;
     optShowOnlySearchResults := optShowOnlySearchResults o |}.

(** The options componentWillReceiveProps calls [sortFilterList] with. *)
Definition receivedOptions (nextProps : LogTableProps) : SortFilterListOptions :=
  {| optShowOnlySearchResults := Some (showOnlySearchResults nextProps);
     optFilter := levelFilter nextProps;
     optSearch := search nextProps;
     optLogFile := logFile nextProps;
     optSortBy := None; optSortDirection := None |}.

(** What the hook compares, as a proposition. *)
Definition sourceChanged (w : World) (logFile nextFile : option LogFile) : Prop :=
  match logFile, nextFile with
  | None, Some _ => True
  | Some logFile, Some nextFile =>
      length (entriesAt w (logEntries logFile)) <> length (entriesAt w (logEntries nextFile))
      \/ logType logFile <> logType nextFile
  | _, None => False
  end.

Definition propsChanged (w : World) (this : LogTable) (nextProps : LogTableProps) : Prop :=
  levelFilter (props this) <> levelFilter nextProps
  \/ search (props this) <> search nextProps
  \/ showOnlySearchResults (props this) <> showOnlySearchResults nextProps
  \/ sourceChanged w (logFile (props this)) (logFile nextProps).

(** ** Example stores, records and components *)

(** Whether [s] contains a space, the separator [split] cuts at. *)
Definition hasSpace (s : string) : bool :=
  existsb (Ascii.eqb " ") (list_ascii_of_string s).

(** A store with the given arrays of records and nothing else. *)
Definition storeOf (arrays : list (list LogEntry)) : World :=
  {| entryArrays := arrays; numberArrays := []; debugLog := [];
     sleuth := {| selectedEntry := None; isDetailsVisible := false |} |}.

(** A record with the given message. *)
Definition withMessage (m : string) : LogEntry :=
  {| index := 0; timestamp := ""; level := "info"; message := m;
     entryLogType := "browser" |}.

Definition withLevel (lv m : string) : LogEntry :=
  {| index := 0; timestamp := ""; level := lv; message := m;
     entryLogType := "browser" |}.

(** Props for a browser log whose entries are the array at [entries]. *)
Definition propsFor (entries : ref) (filter : option LevelFilter)
    (search : option string) (showOnly : bool) : LogTableProps :=
  {| logFile := Some {| logType := "browser"; logEntries := entries |};
     levelFilter := filter; search := search; dateTimeFormat := "HH:mm:ss";
     showOnlySearchResults := showOnly; searchIndex := 0 |}.

(** A component as React sets it up: constructed, rendered, and then
    told that it is mounted.  An exception of [render] ends the mount. *)
Definition mounted `{Host} (props : LogTableProps) : M LogTable :=
  this ← constructor props; render this;; componentDidMount this.

(** * Proofs *)

(** ** The store *)

#[export] Instance frame_refl : Reflexive frame.
Proof. intros w. split; reflexivity. Qed.

#[export] Instance frame_trans : Transitive frame.
Proof.
  intros a b c [] []. split; etrans; eassumption.
Qed.

Lemma or_else_empty (s : string) : Js.or_else s "" = s.
Proof. by destruct s. Qed.

Lemma entriesAt_new (w : World) (l : list LogEntry) :
  entriesAt (set_entryArrays (entryArrays w ++ [l]) w) (length (entryArrays w)) = l.
Proof.
  unfold entriesAt; simpl. by rewrite lookup_app_r, Nat.sub_diag by lia.
Qed.

Lemma entriesAt_prefix (w w' : World) (r : ref) :
  entryArrays w `prefix_of` entryArrays w' -> r < length (entryArrays w) ->
  entriesAt w' r = entriesAt w r.
Proof.
  intros [k Hk] Hr. unfold entriesAt. by rewrite Hk, lookup_app_l.
Qed.

Lemma frame_alloc (w : World) (l : list LogEntry) :
  frame w (set_entryArrays (entryArrays w ++ [l]) w).
Proof. split; simpl; try reflexivity. by apply prefix_app_r. Qed.

Lemma frame_debug (w : World) (msg : string) :
  frame w (set_debugLog (debugLog w ++ [msg]) w).
Proof. split; simpl; try reflexivity. by apply prefix_app_r. Qed.

(** How each primitive runs, for rewriting. *)

Lemma run_bind {A B} (m : M A) (f : A -> M B) (w : World) :
  (m ≫= f) w =
  match m w with
  | (Ok a, w') => f a w'
  | (Throw e, w') => (Throw e, w')
  end.
Proof. reflexivity. Qed.

Lemma bind_assoc {A B C} (m : M A) (f : A -> M B) (g : B -> M C) (w : World) :
  ((m ≫= f) ≫= g) w = (m ≫= fun a => f a ≫= g) w.
Proof. rewrite !run_bind. by destruct (m w) as [[a|e] w']. Qed.

Lemma bind_mret {A B} (a : A) (f : A -> M B) (w : World) :
  (mret a ≫= f) w = f a w.
Proof. reflexivity. Qed.

Lemma bind_throw {A B} (e : Exn) (f : A -> M B) (w : World) :
  (throw e ≫= f) w = (Throw e, w).
Proof. reflexivity. Qed.

Lemma bind_debug {B} (msg : string) (f : unit -> M B) (w : World) :
  (debug msg ≫= f) w = f tt (set_debugLog (debugLog w ++ [msg]) w).
Proof. reflexivity. Qed.

Lemma bind_newEntryArray {B} (l : list LogEntry) (f : ref -> M B) (w : World) :
  (newEntryArray l ≫= f) w =
  f (length (entryArrays w)) (set_entryArrays (entryArrays w ++ [l]) w).
Proof. reflexivity. Qed.

Lemma bind_readEntries {B} (r : ref) (f : list LogEntry -> M B) (w : World) :
  (readEntries r ≫= f) w = f (entriesAt w r) w.
Proof. reflexivity. Qed.

Lemma bind_writeEntries {B} (r : ref) (l : list LogEntry) (f : unit -> M B) (w : World) :
  (writeEntries r l ≫= f) w = f tt (set_entryArrays (<[r := l]> (entryArrays w)) w).
Proof. reflexivity. Qed.

Lemma bind_newNumberArray {B} (l : list nat) (f : ref -> M B) (w : World) :
  (newNumberArray l ≫= f) w =
  f (length (numberArrays w)) (set_numberArrays (numberArrays w ++ [l]) w).
Proof. reflexivity. Qed.

Lemma bind_Array_push {B} (arr : ref) (i : nat) (f : unit -> M B) (w : World) :
  (Array_push arr i ≫= f) w =
  f tt (set_numberArrays (<[arr := numbersAt w arr ++ [i]]> (numberArrays w)) w).
Proof. reflexivity. Qed.

Lemma run_mret {A} (a : A) (w : World) : @mret M M_ret A a w = (Ok a, w).
Proof. reflexivity. Qed.

Lemma run_throw {A} (e : Exn) (w : World) : @throw A e w = (Throw e, w).
Proof. reflexivity. Qed.

Lemma bind_Array_filter {B} (p : LogEntry -> bool) (r : ref) (f : ref -> M B) (w : World) :
  (Array_filter p r ≫= f) w =
  f (length (entryArrays w))
    (set_entryArrays (entryArrays w ++ [List.filter p (entriesAt w r)]) w).
Proof. reflexivity. Qed.

Lemma bind_Array_concat {B} (r : ref) (f : ref -> M B) (w : World) :
  (Array_concat r ≫= f) w =
  f (length (entryArrays w)) (set_entryArrays (entryArrays w ++ [entriesAt w r]) w).
Proof. reflexivity. Qed.

Create Rewrite HintDb mrun.
#[export] Hint Rewrite @bind_assoc @bind_mret @bind_throw @bind_debug
  @bind_newEntryArray @bind_readEntries @bind_writeEntries
  @bind_newNumberArray @bind_Array_push @bind_Array_filter @bind_Array_concat
  @run_mret @run_throw or_else_empty : mrun.

Ltac mrun := autorewrite with mrun.

Section SearchRuns.

Context `{Host}.

(** [doSearchFilter] runs as its model says, allocating a new array for
    its result. *)
Lemma doSearchFilter_run (search : string) (list : ref) (w : World) :
  list < length (entryArrays w) ->
  match searchFilter search (entriesAt w list) with
  | Ok l' =>
      exists list' w',
        run (doSearchFilter search list) w = (Ok list', w')
        /\ entriesAt w' list' = l'
        /\ length (entryArrays w) <= list' < length (entryArrays w')
        /\ frame w w'
  | Throw e =>
      exists w', run (doSearchFilter search list) w = (Throw e, w') /\ frame w w'
  end.
Proof.
  intros Hlist.
  unfold searchFilter, doSearchFilter, run, newRegExp. rewrite or_else_empty.
  destruct (new_RegExp search) as [re|]; mrun.
  2: { eexists; split; reflexivity. }
  match goal with |- context [forEach ?f _ _] => set (body := f) end.
  assert (Hstep : forall re list param w0,
    body (re, list) param w0 =
    if isExclusion param then
      match new_RegExp (Js.slice1 param) with
      | Some re' =>
          let w1 := set_debugLog (debugLog w0 ++ ["Filter-Excluding " +:+ Js.slice1 param]) w0 in
          (Ok (re', length (entryArrays w0)),
           set_entryArrays (entryArrays w0 ++
             [List.filter (fun a => negb (Js.truthy search)
                                    || negb (regexp_test re' (message a)))
                (entriesAt w0 list)]) w1)
      | None =>
          (Throw (SyntaxError (Js.slice1 param)),
           set_debugLog (debugLog w0 ++ ["Filter-Excluding " +:+ Js.slice1 param]) w0)
      end
    else
      let w1 := set_debugLog (debugLog w0 ++ ["Filter-Searching for " +:+ param]) w0 in
      (Ok (re, length (entryArrays w0)),
       set_entryArrays (entryArrays w0 ++
         [List.filter (fun a => negb (Js.truthy search)
                                || regexp_test re (message a))
            (entriesAt w0 list)]) w1)).
  { intros re0 list0 param w0. subst body; simpl.
    destruct (isExclusion param); mrun; [|reflexivity].
    unfold newRegExp. by destruct (new_RegExp (Js.slice1 param)); mrun. }
  clearbody body.
  assert (Hloop : forall params re list w0,
    list < length (entryArrays w0) ->
    match filterTerms search re (entriesAt w0 list) params with
    | Ok l' =>
        exists re' list' w',
          forEach body params (re, list) w0 = (Ok (re', list'), w')
          /\ entriesAt w' list' = l'
          /\ list' < length (entryArrays w')
          /\ (params = [] /\ list' = list \/ length (entryArrays w0) <= list')
          /\ frame w0 w'
    | Throw e => exists w', forEach body params (re, list) w0 = (Throw e, w') /\ frame w0 w'
    end).
  { induction params as [|param params IH]; intros re0 list0 w0 Hl; simpl.
    - exists re0, list0, w0. repeat split; try done. by left.
    - rewrite run_bind, Hstep.
      assert (Hnext : forall re1 msg l2,
        let w2 := set_entryArrays (entryArrays w0 ++ [l2])
                    (set_debugLog (debugLog w0 ++ [msg]) w0) in
        match filterTerms search re1 l2 params with
        | Ok l' =>
            exists re' list' w',
              forEach body params (re1, length (entryArrays w0)) w2 = (Ok (re', list'), w')
              /\ entriesAt w' list' = l'
              /\ list' < length (entryArrays w')
              /\ (param :: params = [] /\ list' = list0 \/ length (entryArrays w0) <= list')
              /\ frame w0 w'
        | Throw e =>
            exists w', forEach body params (re1, length (entryArrays w0)) w2 = (Throw e, w')
                       /\ frame w0 w'
        end).
      { intros re1 msg l2 w2.
        assert (Hw2 : frame w0 w2).
        { subst w2; split; simpl; try reflexivity; by apply prefix_app_r. }
        specialize (IH re1 (length (entryArrays w0)) w2).
        replace (entriesAt w2 (length (entryArrays w0))) with l2 in IH
          by (symmetry; apply (entriesAt_new (set_debugLog _ w0))).
        assert (Hlen : length (entryArrays w2) = S (length (entryArrays w0))).
        { subst w2; simpl. rewrite length_app; simpl; lia. }
        specialize (IH ltac:(lia)).
        destruct (filterTerms search re1 l2 params) as [l'|e].
        - destruct IH as (re' & list' & w' & Hrun & Hcont & Hlt & Hfresh & Hfr).
          exists re', list', w'. do 3 (split; [done|]). split; [|by etrans].
          right. destruct Hfresh as [[_ ->]|Hge]; lia.
        - destruct IH as (w' & Hrun & Hfr). exists w'. split; [done|]. by etrans. }
      destruct (isExclusion param).
      + destruct (new_RegExp (Js.slice1 param)) as [re'|]; cbv zeta.
        * apply Hnext.
        * eexists; split; [reflexivity|]. apply frame_debug.
      + apply Hnext. }
  specialize (Hloop (Js.split_space search) re list w Hlist).
  destruct (filterTerms search re (entriesAt w list) (Js.split_space search)) as [l'|e].
  - destruct Hloop as (re' & list' & w' & Hrun & Hcont & Hlt & Hfresh & Hfr).
    exists list', w'. rewrite run_bind, Hrun. repeat split; try done; try apply Hfr.
    destruct Hfresh as [[Hnil _]|Hge]; [|done].
    by destruct search as [|c s]; simpl in Hnil;
      [|destruct (Ascii.eqb c " "); [|destruct (Js.split_space s)]].
  - destruct Hloop as (w' & Hrun & Hfr). exists w'. by rewrite run_bind, Hrun.
Qed.

Lemma set_numberArrays_id (w : World) : set_numberArrays (numberArrays w) w = w.
Proof. by destruct w. Qed.

Lemma numbersAt_insert (arr : ref) (found : list nat) (w : World) :
  arr < length (numberArrays w) ->
  numbersAt (set_numberArrays (<[arr := found]> (numberArrays w)) w) arr = found.
Proof.
  intros Harr. unfold numbersAt; simpl. by rewrite list_lookup_insert_eq.
Qed.

Lemma pushesOn_refl (arr : ref) (w : World) :
  arr < length (numberArrays w) -> pushesOn arr w w.
Proof.
  intros Harr. repeat split; try done.
  destruct (lookup_lt_is_Some_2 _ _ Harr) as [x Hx].
  exists x. by rewrite list_insert_id.
Qed.

Lemma pushesOn_trans (arr : ref) (a b c : World) :
  pushesOn arr a b -> pushesOn arr b c -> pushesOn arr a c.
Proof.
  intros (He & Hs & Hl & x & Hx) (He' & Hs' & Hl' & y & Hy).
  repeat split; try congruence; [by etrans|].
  exists y. by rewrite Hy, Hx, list_insert_insert_eq.
Qed.

Lemma pushesOn_step (arr : ref) (found : list nat) (msg : string) (w : World) :
  pushesOn arr w
    (set_numberArrays (<[arr := found]> (numberArrays w))
       (set_debugLog (debugLog w ++ [msg]) w)).
Proof.
  repeat split; simpl; [by apply prefix_app_r|by exists found].
Qed.

(** One [list.forEach] whose callback pushes the positions that satisfy
    [p]. *)
Lemma eachFrom_push (arr : ref) (p : LogEntry -> bool) (l : list LogEntry) :
  forall (i : nat) (w : World),
    arr < length (numberArrays w) ->
    eachFrom (fun a i => if p a then Array_push arr i else mret tt) i l w =
    (Ok tt, set_numberArrays
              (<[arr := numbersAt w arr ++ positionsFrom p i l]> (numberArrays w)) w).
Proof.
  induction l as [|a l IH]; intros i w Harr; simpl.
  - rewrite app_nil_r. unfold numbersAt.
    destruct (lookup_lt_is_Some_2 _ _ Harr) as [x Hx]. rewrite Hx; simpl.
    by rewrite list_insert_id, set_numberArrays_id.
  - rewrite run_bind. destruct (p a).
    + change (Array_push arr i w) with
        (Ok tt, set_numberArrays (<[arr := numbersAt w arr ++ [i]]> (numberArrays w)) w).
      cbv iota beta. rewrite IH by (simpl; by rewrite length_insert).
      rewrite numbersAt_insert by done. simpl.
      by rewrite list_insert_insert_eq, <- app_assoc.
    + rewrite run_mret. apply IH, Harr.
Qed.

(** [doSearchIndex] runs as its model says: the array it returns is new
    and holds what the loop pushed. *)
Lemma doSearchIndex_run (search : string) (list : ref) (w : World) :
  match searchIndex_model search (entriesAt w list) with
  | Ok found =>
      exists w',
        run (doSearchIndex search list) w = (Ok (length (numberArrays w)), w')
        /\ numbersAt w' (length (numberArrays w)) = found
        /\ entryArrays w' = entryArrays w
        /\ frame w w'
  | Throw e =>
      exists w', run (doSearchIndex search list) w = (Throw e, w') /\ frame w w'
  end.
Proof.
  unfold searchIndex_model, doSearchIndex, run, newRegExp. rewrite or_else_empty.
  destruct (new_RegExp search) as [re|]; mrun.
  2: { eexists; split; reflexivity. }
  set (arr := length (numberArrays w)).
  set (w1 := set_numberArrays (numberArrays w ++ [[]]) w).
  match goal with |- context [forEach ?f _ _] => set (body := f) end.
  assert (Hstep : forall re param w0,
    arr < length (numberArrays w0) ->
    body re param w0 =
    if isExclusion param then
      match new_RegExp (Js.slice1 param) with
      | Some re' =>
          (Ok re',
           set_numberArrays
             (<[arr := numbersAt w0 arr ++
                  positionsFrom (fun a => negb (Js.truthy search)
                                          || negb (regexp_test re' (message a)))
                    0 (entriesAt w0 list)]> (numberArrays w0))
             (set_debugLog (debugLog w0 ++ ["Index-Excluding " +:+ Js.slice1 param]) w0))
      | None =>
          (Throw (SyntaxError (Js.slice1 param)),
           set_debugLog (debugLog w0 ++ ["Index-Excluding " +:+ Js.slice1 param]) w0)
      end
    else
      (Ok re,
       set_numberArrays
         (<[arr := numbersAt w0 arr ++
              positionsFrom (fun a => negb (Js.truthy search)
                                      || regexp_test re (message a))
                0 (entriesAt w0 list)]> (numberArrays w0))
         (set_debugLog (debugLog w0 ++ ["Index-Searching for " +:+ param]) w0))).
  { intros re0 param w0 Harr. subst body; simpl.
    destruct (isExclusion param); mrun.
    - unfold newRegExp. destruct (new_RegExp (Js.slice1 param)); mrun; [|done].
      unfold Array_forEach. mrun. rewrite run_bind, eachFrom_push by done.
      reflexivity.
    - unfold Array_forEach. mrun. rewrite run_bind, eachFrom_push by done.
      reflexivity. }
  clearbody body.
  assert (Hloop : forall params re w0,
    arr < length (numberArrays w0) ->
    match indexTerms search re (entriesAt w0 list) params with
    | Ok found =>
        exists re' w',
          forEach body params re w0 = (Ok re', w')
          /\ numbersAt w' arr = numbersAt w0 arr ++ found
          /\ pushesOn arr w0 w'
    | Throw e => exists w', forEach body params re w0 = (Throw e, w') /\ pushesOn arr w0 w'
    end).
  { induction params as [|param params IH]; intros re0 w0 Harr; simpl.
    - exists re0, w0. rewrite app_nil_r. repeat split; try done.
      destruct (lookup_lt_is_Some_2 _ _ Harr) as [x Hx].
      exists x. by rewrite list_insert_id.
    - rewrite run_bind, Hstep by done.
      assert (Hnext : forall re1 msg pos,
        let w2 := set_numberArrays (<[arr := numbersAt w0 arr ++ pos]> (numberArrays w0))
                    (set_debugLog (debugLog w0 ++ [msg]) w0) in
        match
          match indexTerms search re1 (entriesAt w0 list) params with
          | Ok found => Ok (pos ++ found)
          | Throw e => Throw e
          end
        with
        | Ok found =>
            exists re' w',
              forEach body params re1 w2 = (Ok re', w')
              /\ numbersAt w' arr = numbersAt w0 arr ++ found
              /\ pushesOn arr w0 w'
        | Throw e =>
            exists w', forEach body params re1 w2 = (Throw e, w') /\ pushesOn arr w0 w'
        end).
      { intros re1 msg pos w2.
        assert (Hw2 : pushesOn arr w0 w2) by apply pushesOn_step.
        assert (Harr2 : arr < length (numberArrays w2))
          by (subst w2; simpl; by rewrite length_insert).
        specialize (IH re1 w2 Harr2).
        change (entriesAt w2 list) with (entriesAt w0 list) in IH.
        replace (numbersAt w2 arr) with (numbersAt w0 arr ++ pos) in IH
          by (symmetry; by apply (numbersAt_insert arr _ (set_debugLog _ w0))).
        destruct (indexTerms search re1 (entriesAt w0 list) params) as [found|e].
        - destruct IH as (re' & w' & Hrun & Hnum & Hp).
          exists re', w'. split; [done|]. split; [by rewrite Hnum, app_assoc|].
          by eapply pushesOn_trans.
        - destruct IH as (w' & Hrun & Hp). exists w'. split; [done|].
          by eapply pushesOn_trans. }
      destruct (isExclusion param).
      + destruct (new_RegExp (Js.slice1 param)) as [re'|].
        * apply Hnext.
        * eexists; split; [reflexivity|].
          repeat split; simpl; [by apply prefix_app_r|].
          destruct (lookup_lt_is_Some_2 _ _ Harr) as [x Hx].
          exists x. by rewrite list_insert_id.
      + apply Hnext. }
  assert (Harr1 : arr < length (numberArrays w1))
    by (subst w1 arr; simpl; rewrite length_app; simpl; lia).
  assert (Hframe : forall w', pushesOn arr w1 w' -> frame w w').
  { intros w' (He & Hs & Hl & x & Hx). split; simpl in *.
    - by rewrite He.
    - rewrite Hx. subst arr. rewrite insert_app_r_alt, Nat.sub_diag by lia.
      by apply prefix_app_r.
    - done.
    - done. }
  specialize (Hloop (Js.split_space search) re w1 Harr1).
  change (entriesAt w1 list) with (entriesAt w list) in Hloop.
  destruct (indexTerms search re (entriesAt w list) (Js.split_space search)) as [found|e].
  - destruct Hloop as (re' & w' & Hrun & Hnum & Hp).
    exists w'. rewrite run_bind, Hrun. split; [done|]. split.
    + rewrite Hnum. subst w1 arr. unfold numbersAt; simpl.
      by rewrite lookup_app_r, Nat.sub_diag by lia.
    + split; [apply Hp|by apply Hframe].
  - destruct Hloop as (w' & Hrun & Hp).
    exists w'. rewrite run_bind, Hrun. split; [done|by apply Hframe].
Qed.

End SearchRuns.

(** ** The searches on the records of their argument *)

Lemma split_space_single (s : string) :
  hasSpace s = false -> Js.split_space s = [s].
Proof.
  unfold hasSpace. induction s as [|c s IH]; [done|].
  cbn [list_ascii_of_string existsb Js.split_space].
  rewrite (Ascii.eqb_sym " " c). destruct (Ascii.eqb c " "); [done|].
  intros Hs. by rewrite (IH Hs).
Qed.

Lemma entriesAt_lookup (w : World) (list : ref) (R : Datatypes.list LogEntry) :
  entryArrays w !! list = Some R -> entriesAt w list = R.
Proof. intros Hl. unfold entriesAt. by rewrite Hl. Qed.

Section SearchResults.

Context `{Host}.

Lemma evalEntries_doSearchFilter (search : string) (list : ref) (w : World)
    (R : Datatypes.list LogEntry) :
  entryArrays w !! list = Some R ->
  evalEntries (doSearchFilter search list) w = searchFilter search R.
Proof.
  intros Hl. pose proof (doSearchFilter_run search list w (lookup_lt_Some _ _ _ Hl)) as Hrun.
  rewrite (entriesAt_lookup _ _ _ Hl) in Hrun. unfold evalEntries.
  destruct (searchFilter search R) as [l'|e].
  - destruct Hrun as (list' & w' & -> & <- & _). done.
  - destruct Hrun as (w' & -> & _). done.
Qed.

Lemma evalNumbers_doSearchIndex (search : string) (list : ref) (w : World)
    (R : Datatypes.list LogEntry) :
  entryArrays w !! list = Some R ->
  evalNumbers (doSearchIndex search list) w = searchIndex_model search R.
Proof.
  intros Hl. pose proof (doSearchIndex_run search list w) as Hrun.
  rewrite (entriesAt_lookup _ _ _ Hl) in Hrun. unfold evalNumbers.
  destruct (searchIndex_model search R) as [l'|e].
  - destruct Hrun as (w' & -> & <- & _). done.
  - destruct Hrun as (w' & -> & _). done.
Qed.

Lemma filterTerms_isOk (search : string) (params : Datatypes.list string) :
  forall re l,
    isOk (filterTerms search re l params) = true <->
    Forall (fun param => isExclusion param = true -> is_Some (new_RegExp (Js.slice1 param)))
      params.
Proof.
  induction params as [|param params IH]; intros re l; simpl.
  - split; [constructor|done].
  - rewrite Forall_cons. destruct (isExclusion param).
    + destruct (new_RegExp (Js.slice1 param)) as [re'|]; simpl.
      * rewrite IH. split; [by split; [eauto|]|by intros [_ ?]].
      * split; [done|]. intros [Hc _]. by destruct (Hc eq_refl).
    + rewrite IH. split; [by split|by intros [_ ?]].
Qed.

Lemma indexTerms_isOk (search : string) (params : Datatypes.list string) :
  forall re l,
    isOk (indexTerms search re l params) = true <->
    Forall (fun param => isExclusion param = true -> is_Some (new_RegExp (Js.slice1 param)))
      params.
Proof.
  induction params as [|param params IH]; intros re l; simpl.
  - split; [constructor|done].
  - rewrite Forall_cons. destruct (isExclusion param).
    + destruct (new_RegExp (Js.slice1 param)) as [re'|]; simpl.
      * rewrite <- (IH re' l).
        destruct (indexTerms search re' l params); simpl;
          (split; [by split; [eauto|]|by intros [_ ?]]).
      * split; [done|]. intros [Hc _]. by destruct (Hc eq_refl).
    + rewrite <- (IH re l).
      destruct (indexTerms search re l params); simpl;
        (split; [by split|by intros [_ ?]]).
Qed.

(** A search throws nothing but the SyntaxError of [new RegExp]. *)
Lemma filterTerms_throws (search : string) (params : Datatypes.list string) :
  forall re l e, filterTerms search re l params = Throw e ->
    exists pattern, e = SyntaxError pattern /\ new_RegExp pattern = None.
Proof.
  induction params as [|param params IH]; intros re l e; simpl; [done|].
  destruct (isExclusion param); [|by apply IH].
  destruct (new_RegExp (Js.slice1 param)) eqn:Hc; [by apply IH|].
  intros [= <-]. eauto.
Qed.

Lemma indexTerms_throws (search : string) (params : Datatypes.list string) :
  forall re l e, indexTerms search re l params = Throw e ->
    exists pattern, e = SyntaxError pattern /\ new_RegExp pattern = None.
Proof.
  induction params as [|param params IH]; intros re l e; simpl; [done|].
  destruct (isExclusion param).
  - destruct (new_RegExp (Js.slice1 param)) eqn:Hc.
    + destruct (indexTerms search r l params) eqn:Hi; [done|].
      intros [= <-]. by eapply IH.
    + intros [= <-]. eauto.
  - destruct (indexTerms search re l params) eqn:Hi; [done|].
    intros [= <-]. by eapply IH.
Qed.

(** The positions [positionsFrom] lists: those of the records that
    satisfy [p], each once, in increasing order. *)
Lemma elem_of_positionsFrom (p : LogEntry -> bool) (l : Datatypes.list LogEntry) :
  forall i n, n ∈ positionsFrom p i l <->
    exists a, i <= n /\ l !! (n - i) = Some a /\ p a = true.
Proof.
  induction l as [|a l IH]; intros i n; simpl.
  - split; [by intros ?%elem_of_nil|by intros (? & ? & ? & ?)].
  - assert (Hrest : n ∈ positionsFrom p (S i) l <->
        exists b, i < n /\ l !! (n - S i) = Some b /\ p b = true).
    { rewrite IH. split; intros (b & ? & ? & ?); exists b; repeat split; try done; lia. }
    assert (Hhere : forall b, i < n -> (a :: l) !! (n - i) = Some b <-> l !! (n - S i) = Some b).
    { intros b Hn. by replace (n - i) with (S (n - S i)) by lia. }
    destruct (p a) eqn:Hp; [rewrite elem_of_cons|]; rewrite Hrest; split.
    + intros [->|(b & Hn & Hb & Hpb)].
      * exists a. rewrite Nat.sub_diag. by repeat split.
      * exists b. repeat split; [lia| |done]. by apply Hhere.
    + intros (b & Hn & Hb & Hpb). destruct (decide (n = i)) as [->|Hne]; [by left|].
      right. exists b. repeat split; [lia| |done]. apply Hhere; [lia|done].
    + intros (b & Hn & Hb & Hpb). exists b. repeat split; [lia| |done]. by apply Hhere.
    + intros (b & Hn & Hb & Hpb). destruct (decide (n = i)) as [->|Hne].
      * rewrite Nat.sub_diag in Hb. simpl in Hb. congruence.
      * exists b. repeat split; [lia| |done]. apply Hhere; [lia|done].
Qed.

Lemma positionsFrom_sorted (p : LogEntry -> bool) (l : Datatypes.list LogEntry) :
  forall i, StronglySorted lt (positionsFrom p i l).
Proof.
  induction l as [|a l IH]; intros i; simpl; [constructor|].
  destruct (p a); [|apply IH].
  constructor; [apply IH|]. apply Forall_forall. intros n Hn.
  apply elem_of_positionsFrom in Hn as (b & Hle & _). lia.
Qed.

End SearchResults.

Lemma outcome_bind (w0 w : World) (model : Res (list LogEntry))
    (g : list LogEntry -> Res (list LogEntry)) (m : M ref) (f : ref -> M ref) :
  outcome w0 model (m w) ->
  (forall l r w', model = Ok l -> outcome w0 (Ok l) (Ok r, w') ->
     outcome w0 (g l) (f r w')) ->
  outcome w0 (res_bind model g) ((m ≫= f) w).
Proof.
  intros Hm Hf. rewrite run_bind.
  destruct model as [l|e], (m w) as [[r|e'] w']; simpl in *; try done.
  by apply Hf.
Qed.

Lemma frame_write (w0 w : World) (r : ref) (l : list LogEntry) :
  frame w0 w -> length (entryArrays w0) <= r ->
  frame w0 (set_entryArrays (<[r := l]> (entryArrays w)) w).
Proof.
  intros [[k Hk] Hn Hl Hs] Hr. split; simpl; try done.
  rewrite Hk, insert_app_r_alt by done. by apply prefix_app_r.
Qed.

Lemma entriesAt_write (w : World) (r : ref) (l : list LogEntry) :
  r < length (entryArrays w) ->
  entriesAt (set_entryArrays (<[r := l]> (entryArrays w)) w) r = l.
Proof. intros Hr. unfold entriesAt; simpl. by rewrite list_lookup_insert_eq. Qed.

(** An in-place update of a fresh array. *)
Lemma outcome_in_place (w0 w : World) (r : ref) (l : list LogEntry)
    (f : list LogEntry -> list LogEntry) :
  outcome w0 (Ok l) (Ok r, w) ->
  outcome w0 (Ok (f l))
    (Ok r, set_entryArrays (<[r := f (entriesAt w r)]> (entryArrays w)) w).
Proof.
  intros (Hl & [Hge Hlt] & Hfr). simpl. rewrite entriesAt_write, Hl by done.
  rewrite length_insert. do 2 (split; [done|]). by apply frame_write.
Qed.

Lemma outcome_debug (w0 w : World) (r : ref) (l : list LogEntry) (msg : string) :
  outcome w0 (Ok l) (Ok r, w) ->
  outcome w0 (Ok l) (Ok r, set_debugLog (debugLog w ++ [msg]) w).
Proof.
  intros (Hl & Hb & Hfr). do 2 (split; [done|]).
  etrans; [exact Hfr|apply frame_debug].
Qed.

Section PipelineRuns.

Context `{Host}.

Lemma outcome_doSearchFilter (w0 w : World) (search : string) (r : ref)
    (l : Datatypes.list LogEntry) :
  outcome w0 (Ok l) (Ok r, w) ->
  outcome w0 (searchFilter search l) (doSearchFilter search r w).
Proof.
  intros (Hl & [Hge Hlt] & Hfr).
  pose proof (doSearchFilter_run search r w Hlt) as Hrun. rewrite Hl in Hrun.
  pose proof (prefix_length _ _ (frame_entries _ _ Hfr)) as Hlen.
  unfold run in Hrun. destruct (searchFilter search l) as [l'|e].
  - destruct Hrun as (r' & w' & -> & Hl' & Hb & Hfr'). simpl.
    split; [done|]. split; [lia|by etrans].
  - destruct Hrun as (w' & -> & Hfr'). simpl. split; [done|by etrans].
Qed.

(** [sortFilterList] logs that it starts and then: allocates an empty
    array when there is no log file; hands out the log file's own array on
    the early return; and otherwise runs the pipeline on a copy. *)
Lemma sortFilterList_run (this : LogTable) (o : SortFilterListOptions) (w : World) :
  let w1 := set_debugLog (debugLog w ++ ["Starting filter"]) w in
  match usedLogFile this o with
  | None =>
      run (sortFilterList this o) w =
      (Ok (length (entryArrays w)), set_entryArrays (entryArrays w ++ [[]]) w1)
  | Some f =>
      if fastPath this o then run (sortFilterList this o) w = (Ok (logEntries f), w1)
      else
        logEntries f < length (entryArrays w) ->
        outcome w1 (pipeline this o (entriesAt w (logEntries f)))
          (run (sortFilterList this o) w)
  end.
Proof.
  intros w1. unfold sortFilterList, run. rewrite bind_debug. fold w1.
  unfold usedLogFile, fastPath, pipeline, usedFilter, usedSearch, usedSortBy,
    usedShowOnly, usedSortDirection.
  set (logFile' := or_object (optLogFile o) (logFile (props this))).
  set (filter := or_object (optFilter o) (levelFilter (props this))).
  set (search' := match optSearch o with Some s => Some s | None => search (props this) end).
  set (sortBy' := Js.or_else_opt (optSortBy o) (sortBy (state this))).
  set (showOnly := match optShowOnlySearchResults o with
                   | Some b => b | None => showOnlySearchResults (props this) end).
  set (sortDirection' := Js.or_else_opt (optSortDirection o) (sortDirection (state this))).
  destruct logFile' as [f|]; [|reflexivity].
  match goal with |- if ?c then _ else _ => destruct c end; [reflexivity|].
  intros Hf. rewrite bind_Array_concat.
  set (w2 := set_entryArrays _ w1).
  assert (H2 : outcome w1 (Ok (entriesAt w (logEntries f)))
                 (Ok (length (entryArrays w1)), w2)).
  { split; [apply (entriesAt_new w1)|]. split; [|apply frame_alloc].
    subst w2; simpl. rewrite length_app; simpl; lia. }
  apply outcome_bind.
  { unfold filterStage. destruct (shouldFilter this filter); [|exact H2].
    destruct filter as [filter|]; [|split; [done|apply H2]].
    destruct H2 as (Hl & [Hge Hlt] & Hfr).
    change (Array_filter (doFilter filter) (length (entryArrays w1)) w2) with
      (Ok (length (entryArrays w2)),
       set_entryArrays (entryArrays w2 ++
         [List.filter (doFilter filter) (entriesAt w2 (length (entryArrays w1)))]) w2).
    split; [by rewrite entriesAt_new, Hl|]. split.
    - simpl. rewrite !length_app; simpl; lia.
    - etrans; [exact Hfr|apply frame_alloc]. }
  intros l1 r1 w3 _ H3. apply outcome_bind.
  { unfold searchStage. destruct search' as [s|]; [|exact H3].
    destruct (Js.truthy s && showOnly); [|exact H3].
    by apply outcome_doSearchFilter. }
  intros l2 r2 w4 _ H4.
  apply (outcome_bind w1 w4 (Ok (sortStage sortBy' l2))
           (fun l => Ok (reverseStage sortDirection' l))).
  { unfold sortStage.
    destruct (Js.opt_is sortBy' "index" || Js.opt_is sortBy' "timestamp").
    { rewrite bind_debug. by apply outcome_debug. }
    destruct (Js.opt_is sortBy' "message").
    { rewrite bind_debug. unfold Array_sort. rewrite bind_readEntries, bind_writeEntries.
      by apply (outcome_in_place _ _ _ _ (sorted_by doSortByMessage)), outcome_debug. }
    destruct (Js.opt_is sortBy' "level"); [|exact H4].
    rewrite bind_debug. unfold Array_sort. rewrite bind_readEntries, bind_writeEntries.
    by apply (outcome_in_place _ _ _ _ (sorted_by doSortByLevel)), outcome_debug. }
  intros l3 r3 w5 _ H5. unfold reverseStage.
  destruct (Js.opt_is sortDirection' SORT_TYPES.DESC); [|exact H5].
  rewrite bind_assoc, bind_debug. unfold Array_reverse.
  rewrite !bind_assoc, bind_readEntries, bind_assoc, bind_writeEntries.
  by apply (outcome_in_place _ _ _ _ (@rev LogEntry)), outcome_debug.
Qed.

End PipelineRuns.

(** ** The search: claims C1 to C4, C9 and C10 *)

Lemma StronglySorted_lt_NoDup (l : list nat) : StronglySorted lt l -> NoDup l.
Proof.
  induction 1 as [|n l Hs IH Hall]; constructor; [|done].
  intros Hn. rewrite Forall_forall in Hall. specialize (Hall n Hn). lia.
Qed.

Lemma elem_of_List_filter {A} (p : A -> bool) (l : list A) (a : A) :
  a ∈ List.filter p l <-> a ∈ l /\ p a = true.
Proof. rewrite !list_elem_of_In. apply filter_In. Qed.

(** C1, the code on the spec's second scenario.  The inclusion term
    [foo] is tested with the expression built from the whole search text
    ["foo !bar"], which no message contains, so no record is left: the
    record ["foo"] the claim expects is not returned. *)
Theorem C1_scenario_foo_not_bar :
  evalEntries (doSearchFilter "foo !bar" 0)
    (storeOf [[withMessage "foo bar"; withMessage "foo"; withMessage "bar"]])
  = Ok [].
Proof. vm_compute. reflexivity. Qed.

(** C2, the code on a failing input.  Searching ["foo"] and then ["bar"]
    keeps the record ["bar foo"], searching ["foo bar"] at once drops it;
    and on the record ["foo bar"] the searches ["foo bar"] and ["bar foo"],
    which have the same terms in another order, differ. *)
Theorem C2_chained_searches_differ :
  evalEntries (r ← doSearchFilter "foo" 0; doSearchFilter "bar" r)
    (storeOf [[withMessage "bar foo"]]) = Ok [withMessage "bar foo"]
  /\ evalEntries (doSearchFilter ("foo" +:+ " " +:+ "bar") 0)
       (storeOf [[withMessage "bar foo"]]) = Ok []
  /\ evalEntries (doSearchFilter "foo bar" 0)
       (storeOf [[withMessage "foo bar"]]) = Ok [withMessage "foo bar"]
  /\ evalEntries (doSearchFilter "bar foo" 0)
       (storeOf [[withMessage "foo bar"]]) = Ok [].
Proof. repeat split; vm_compute; reflexivity. Qed.

(** C3, the code on a failing input.  On the messages a, b, c the search
    ["!a !b"] in filtering mode keeps only c, at position 2; in indexing
    mode each term pushes its own matches over the whole list, so the
    positions 1 and 0 of records that fail a term are listed, position 2
    is listed twice, and the list is not increasing. *)
Theorem C3_index_search_is_not_an_intersection :
  evalEntries (doSearchFilter "!a !b" 0)
    (storeOf [[withMessage "a"; withMessage "b"; withMessage "c"]])
  = Ok [withMessage "c"]
  /\ evalNumbers (doSearchIndex "!a !b" 0)
       (storeOf [[withMessage "a"; withMessage "b"; withMessage "c"]])
     = Ok [1; 2; 0; 2].
Proof. split; vm_compute; reflexivity. Qed.

(** C4, counterexample: the search text ["("] is not a regular
    expression, and both searches throw the SyntaxError of [new RegExp] to
    their caller. *)
Lemma C4_counterexample_unterminated_group :
  evalEntries (doSearchFilter "(" 0) (storeOf [[withMessage "a"]])
  = Throw (SyntaxError "(")
  /\ evalNumbers (doSearchIndex "(" 0) (storeOf [[withMessage "a"]])
     = Throw (SyntaxError "(").
Proof. split; vm_compute; reflexivity. Qed.

(** C4, amended: on every record list and search text, [doSearchFilter]
    and [doSearchIndex] return a value exactly when the whole search text
    compiles as a regular expression and so does what follows the [!] of
    each exclusion term; otherwise the SyntaxError of the pattern that does
    not compile is thrown to the caller. *)
Theorem C4_search_returns_iff_patterns_compile `{Host}
    (search : string) (list : ref) (R : Datatypes.list LogEntry) (w : World) :
  entryArrays w !! list = Some R ->
  (isOk (evalEntries (doSearchFilter search list) w) = true
   <-> is_Some (new_RegExp search) /\ termsCompile search)
  /\ (isOk (evalNumbers (doSearchIndex search list) w) = true
      <-> is_Some (new_RegExp search) /\ termsCompile search)
  /\ (forall e, evalEntries (doSearchFilter search list) w = Throw e
                \/ evalNumbers (doSearchIndex search list) w = Throw e ->
        exists pattern, e = SyntaxError pattern /\ new_RegExp pattern = None).
Proof.
  intros Hl.
  rewrite (evalEntries_doSearchFilter _ _ _ _ Hl), (evalNumbers_doSearchIndex _ _ _ _ Hl).
  unfold searchFilter, searchIndex_model, termsCompile.
  destruct (new_RegExp search) as [re|] eqn:Hre.
  - rewrite filterTerms_isOk, indexTerms_isOk. repeat split; try tauto; eauto.
    intros e [He|He]; [by eapply filterTerms_throws|by eapply indexTerms_throws].
  - repeat split; try done; try (by intros [[? [=]] _]).
    intros e [[= <-]|[= <-]]; eauto.
Qed.

(** The theorem of C4 at the search ["foo !("]: neither the whole text
    nor the rest of its exclusion term, ["("], compiles, and the search
    does not return. *)
Lemma C4_witness :
  entryArrays (storeOf [[withMessage "foo"]]) !! 0 = Some [withMessage "foo"]
  /\ (isOk (evalEntries (doSearchFilter "foo !(" 0) (storeOf [[withMessage "foo"]])) = true
      <-> is_Some (new_RegExp "foo !(") /\ termsCompile "foo !(").
Proof.
  split; [reflexivity|].
  apply (@C4_search_returns_iff_patterns_compile ascii_host "foo !(" 0 [withMessage "foo"]
           (storeOf [[withMessage "foo"]])).
  reflexivity.
Defined.

(** C9, counterexample: for x = ["!a"] the text ["!x"] is ["!!a"], which
    excludes the messages matching ["!a"], while ["!a"] is itself an
    exclusion term; the record b is in both results. *)
Lemma C9_counterexample_double_bang :
  evalEntries (doSearchFilter ("!" +:+ "!a") 0) (storeOf [[withMessage "b"]])
  = Ok [withMessage "b"]
  /\ evalEntries (doSearchFilter "!a" 0) (storeOf [[withMessage "b"]])
     = Ok [withMessage "b"].
Proof. split; vm_compute; reflexivity. Qed.

(** For an empty x the text ["!x"] is [!] alone, one character, which is
    no exclusion term but a pattern to include: both searches keep a
    record whose message has a [!]. *)
Example bang_alone_is_no_exclusion :
  evalEntries (doSearchFilter ("!" +:+ "") 0) (storeOf [[withMessage "stop!"]])
  = Ok [withMessage "stop!"]
  /\ evalEntries (doSearchFilter "" 0) (storeOf [[withMessage "stop!"]])
     = Ok [withMessage "stop!"].
Proof. split; vm_compute; reflexivity. Qed.

(** C9, amended: for every record list R and every x that is not empty
    (so that ["!x"] is longer than one character), has no space and is not
    itself an exclusion term (it does not start with [!], or is [!]
    alone), if x and ["!x"] both compile as regular expressions then
    [doSearchFilter("!x", R)] is the records of R whose message does not
    match x and [doSearchFilter("x", R)] is those whose message does: every
    record of R is in exactly one of the two results. *)
Theorem C9_exclusion_is_complement `{Host}
    (x : string) (list : ref) (R : Datatypes.list LogEntry) (w : World)
    (re reNot : RegExp) :
  entryArrays w !! list = Some R ->
  x <> "" -> hasSpace x = false -> isExclusion x = false ->
  new_RegExp x = Some re -> new_RegExp ("!" +:+ x) = Some reNot ->
  evalEntries (doSearchFilter ("!" +:+ x) list) w
  = Ok (List.filter (fun a => negb (regexp_test re (message a))) R)
  /\ evalEntries (doSearchFilter x list) w
     = Ok (List.filter (fun a => regexp_test re (message a)) R)
  /\ forall a, a ∈ R ->
       (a ∈ List.filter (fun a => negb (regexp_test re (message a))) R
        <-> a ∉ List.filter (fun a => regexp_test re (message a)) R).
Proof.
  intros Hl Hx Hsp Hex Hre HreNot.
  rewrite !(evalEntries_doSearchFilter _ _ _ _ Hl). unfold searchFilter.
  rewrite Hre, HreNot, (split_space_single x Hsp).
  rewrite (split_space_single ("!" +:+ x)) by (by unfold hasSpace in *; simpl).
  assert (Hnot : isExclusion ("!" +:+ x) = true) by (by destruct x).
  assert (Htr : Js.truthy x = true) by (by destruct x).
  cbn [filterTerms]. rewrite Hnot, Hex.
  change (Js.slice1 ("!" +:+ x)) with x. change (Js.truthy ("!" +:+ x)) with true.
  rewrite Hre, Htr.
  repeat split; try done.
  - rewrite !elem_of_List_filter. intros [_ Hn] [_ Hy]. rewrite Hy in Hn. done.
  - rewrite !elem_of_List_filter. intros Hn. split; [done|].
    destruct (regexp_test re (message a)); [|done]. by destruct Hn.
Qed.

(** The theorem of C9 at x = ["a"] on the messages a and b. *)
Lemma C9_witness :
  evalEntries (doSearchFilter ("!" +:+ "a") 0)
    (storeOf [[withMessage "a"; withMessage "b"]]) = Ok [withMessage "b"]
  /\ evalEntries (doSearchFilter "a" 0)
       (storeOf [[withMessage "a"; withMessage "b"]]) = Ok [withMessage "a"].
Proof.
  destruct (@C9_exclusion_is_complement ascii_host "a" 0 [withMessage "a"; withMessage "b"]
              (storeOf [[withMessage "a"; withMessage "b"]])
              (AsciiHost.ReCat (AsciiHost.ReChar "a") AsciiHost.ReEps)
              (AsciiHost.ReCat (AsciiHost.ReChar "!")
                 (AsciiHost.ReCat (AsciiHost.ReChar "a") AsciiHost.ReEps))
              eq_refl ltac:(discriminate) eq_refl eq_refl eq_refl eq_refl)
    as (Hnot & Hyes & _).
  split; [exact Hnot|exact Hyes].
Defined.

(** C10, counterexample: ["*"] is not empty, has no space and does not
    start with [!], yet it is not a regular expression: both searches
    throw instead of returning. *)
Lemma C10_counterexample_nothing_to_repeat :
  evalEntries (doSearchFilter "*" 0) (storeOf [[withMessage "a*"]])
  = Throw (SyntaxError "*")
  /\ evalNumbers (doSearchIndex "*" 0) (storeOf [[withMessage "a*"]])
     = Throw (SyntaxError "*").
Proof. split; vm_compute; reflexivity. Qed.

(** C10, amended: for every record list R and every non-empty search
    text S without a space that does not start with [!] and that compiles
    as a regular expression, [doSearchFilter(S, R)] is the records of R
    whose message matches S, in their order in R, and [doSearchIndex(S, R)]
    is the positions of those records, strictly increasing and without
    duplicates. *)
Theorem C10_single_inclusion_term `{Host}
    (S : string) (list : ref) (R : Datatypes.list LogEntry) (w : World) (re : RegExp) :
  entryArrays w !! list = Some R ->
  S <> "" -> hasSpace S = false -> Js.startsWith_bang S = false ->
  new_RegExp S = Some re ->
  evalEntries (doSearchFilter S list) w
  = Ok (List.filter (fun a => regexp_test re (message a)) R)
  /\ exists found,
       evalNumbers (doSearchIndex S list) w = Ok found
       /\ StronglySorted lt found
       /\ NoDup found
       /\ forall i, i ∈ found <->
            exists a, R !! i = Some a /\ regexp_test re (message a) = true.
Proof.
  intros Hl HS Hsp Hbang Hre.
  rewrite (evalEntries_doSearchFilter _ _ _ _ Hl), (evalNumbers_doSearchIndex _ _ _ _ Hl).
  unfold searchFilter, searchIndex_model. rewrite Hre, (split_space_single S Hsp).
  assert (Hex : isExclusion S = false) by (unfold isExclusion; by rewrite Hbang).
  assert (Htr : Js.truthy S = true) by (by destruct S).
  cbn [filterTerms indexTerms]. rewrite Hex, Htr. split; [done|].
  eexists. split; [reflexivity|]. rewrite app_nil_r.
  pose proof (positionsFrom_sorted (fun a => negb true || regexp_test re (message a)) R 0)
    as Hsorted.
  split; [done|]. split; [by apply StronglySorted_lt_NoDup|].
  intros i. rewrite elem_of_positionsFrom, Nat.sub_0_r.
  split; intros (a & Ha); exists a; intuition lia.
Qed.

(** The theorem of C10 at the search ["foo"]; the match ignores case. *)
Lemma C10_witness :
  evalEntries (doSearchFilter "foo" 0)
    (storeOf [[withMessage "a foo"; withMessage "bar"; withMessage "FOO"]])
  = Ok [withMessage "a foo"; withMessage "FOO"].
Proof.
  destruct (@C10_single_inclusion_term ascii_host "foo" 0
              [withMessage "a foo"; withMessage "bar"; withMessage "FOO"]
              (storeOf [[withMessage "a foo"; withMessage "bar"; withMessage "FOO"]])
              (AsciiHost.ReCat (AsciiHost.ReChar "f")
                 (AsciiHost.ReCat (AsciiHost.ReChar "o")
                    (AsciiHost.ReCat (AsciiHost.ReChar "o") AsciiHost.ReEps)))
              eq_refl ltac:(discriminate) eq_refl eq_refl eq_refl)
    as [Hfilter _].
  exact Hfilter.
Defined.

(** ** The pipeline on the records of the log file *)

Section PipelineResults.

Context `{Host}.

(** On the early return the pipeline model changes nothing. *)
Lemma pipeline_fastPath (this : LogTable) (o : SortFilterListOptions)
    (R : list LogEntry) :
  fastPath this o = true -> pipeline this o R = Ok R.
Proof.
  unfold fastPath, pipeline, filterStage, searchStage, sortStage, reverseStage.
  intros [[[Hby Hdir]%andb_prop Hfilter%negb_true_iff]%andb_prop
            Hsearch%negb_true_iff]%andb_prop.
  rewrite Hfilter; simpl.
  destruct (usedSearch this o) as [s|]; simpl in *; [rewrite Hsearch|]; simpl.
  all: f_equal.
  all: unfold Js.opt_is, SORT_TYPES.ASC, SORT_TYPES.DESC in *.
  all: destruct (usedSortBy this o) as [[|c by']|];
       destruct (usedSortDirection this o) as [[|d dir']|]; simpl in *;
       repeat case_bool_decide; simplify_eq; done.
Qed.

(** The records [sortFilterList] returns are those of the model. *)
Lemma evalEntries_sortFilterList (this : LogTable) (o : SortFilterListOptions)
    (w : World) (f : LogFile) (R : list LogEntry) :
  usedLogFile this o = Some f ->
  entryArrays w !! logEntries f = Some R ->
  evalEntries (sortFilterList this o) w = pipeline this o R.
Proof.
  intros Hf HR. pose proof (sortFilterList_run this o w) as Hrun.
  rewrite Hf in Hrun. cbv zeta in Hrun. unfold evalEntries.
  destruct (fastPath this o) eqn:Hfast.
  - rewrite Hrun, (pipeline_fastPath _ _ _ Hfast). f_equal.
    by apply entriesAt_lookup.
  - specialize (Hrun (lookup_lt_Some _ _ _ HR)).
    rewrite (entriesAt_lookup _ _ _ HR) in Hrun.
    destruct (pipeline this o R) as [l|e],
      (run (sortFilterList this o) w) as [[r|e'] w']; simpl in Hrun; try done.
    + by destruct Hrun as [-> _].
    + by destruct Hrun as [-> _].
Qed.

Lemma sortFilterList_started (this : LogTable) (o : SortFilterListOptions) (w : World) :
  (forall f, usedLogFile this o = Some f -> logEntries f < length (entryArrays w)) ->
  started w (run (sortFilterList this o) w).2
  /\ frame w (run (sortFilterList this o) w).2.
Proof.
  intros Hvalid. pose proof (sortFilterList_run this o w) as Hrun. cbv zeta in Hrun.
  set (w1 := set_debugLog (debugLog w ++ ["Starting filter"]) w) in *.
  assert (Hw1 : frame w w1) by apply frame_debug.
  unfold started.
  destruct (usedLogFile this o) as [f|].
  - destruct (fastPath this o).
    + rewrite Hrun. by split.
    + specialize (Hrun (Hvalid f eq_refl)).
      destruct (pipeline this o (entriesAt w (logEntries f))) as [l|e],
        (run (sortFilterList this o) w) as [[r|e'] w']; simpl in Hrun; try done.
      * destruct Hrun as (_ & _ & Hfr). split; [apply Hfr|by etrans].
      * destruct Hrun as (_ & Hfr). split; [apply Hfr|by etrans].
  - rewrite Hrun. split; [done|]. etrans; [exact Hw1|apply (frame_alloc w1 [])].
Qed.

Lemma not_started_same_log (w w' : World) :
  debugLog w' = debugLog w -> ~ started w w'.
Proof.
  intros Hlog Hst. apply prefix_length in Hst.
  rewrite Hlog, length_app in Hst. simpl in Hst. lia.
Qed.

Lemma started_frame (w w1 w2 : World) : started w w1 -> frame w1 w2 -> started w w2.
Proof. intros Hst Hfr. unfold started. etrans; [exact Hst|apply Hfr]. Qed.

End PipelineResults.

(** ** The level filter: claim C6 *)

Lemma forallb_false {A} (p : A -> bool) (l : list A) :
  forallb p l = false <-> exists x, x ∈ l /\ p x = false.
Proof.
  induction l as [|a l IH]; simpl.
  - split; [done|]. by intros (x & ?%elem_of_nil & _).
  - rewrite andb_false_iff, IH. setoid_rewrite elem_of_cons. split.
    + intros [Ha|(x & Hx & Hp)]; eauto.
    + intros (x & [->|Hx] & Hp); eauto.
Qed.

Lemma elem_of_keys (F : LevelFilter) (k : string) :
  k ∈ keys F <-> is_Some (F !! k).
Proof.
  unfold keys. rewrite list_elem_of_fmap. split.
  - intros ([k' v] & -> & Hkv%elem_of_map_to_list). eauto.
  - intros [v Hv]. exists (k, v). split; [done|]. by apply elem_of_map_to_list.
Qed.

(** The table filters exactly when the filter has a key set to true and a
    key set to false. *)
Lemma shouldFilter_mixed `{Host} (this : LogTable) (F : LevelFilter) :
  shouldFilter this (Some F) = true <->
  (exists k, F !! k = Some true) /\ (exists k, F !! k = Some false).
Proof.
  unfold shouldFilter; simpl. rewrite negb_true_iff, orb_false_iff, !forallb_false.
  unfold get. split.
  - intros [(k & Hk & Hv) (k' & Hk' & Hv')].
    apply elem_of_keys in Hk as [v Hk], Hk' as [v' Hk'].
    rewrite Hk in Hv. rewrite Hk' in Hv'. simpl in *.
    destruct v, v'; try done. eauto.
  - intros [(k & Hk) (k' & Hk')]. split.
    + exists k'. rewrite Hk'. split; [|done]. apply elem_of_keys; eauto.
    + exists k. rewrite Hk. split; [|done]. apply elem_of_keys; eauto.
Qed.

(** C6, counterexample: the filter [{info: true, error: false}] has no
    key for the level warn; the table does filter, and the record of level
    warn is dropped instead of R being returned unchanged. *)
Lemma C6_counterexample_missing_key_drops_record :
  evalEntries
    (this ← constructor
       (propsFor 0 (Some {[ "info" := true; "error" := false ]}) None false);
     sortFilterList this noOptions)
    (storeOf [[withLevel "warn" "disk almost full"]])
  = Ok [].
Proof. vm_compute. reflexivity. Qed.

(** What [doFilter] keeps: the records whose level is not empty and reads
    truthy in the filter, as a key set to true or, when the filter has no
    such key, as a name inherited from [Object.prototype]. *)
Lemma doFilter_keeps (F : LevelFilter) (a : LogEntry) :
  doFilter F a = true <->
  level a <> ""
  /\ (F !! level a = Some true
      \/ (F !! level a = None /\ level a ∈ Js.objectPrototype)).
Proof.
  unfold doFilter, get, Js.inherited. rewrite andb_true_iff.
  assert (Js.truthy (level a) = true <-> level a <> "") as ->
    by (destruct (level a); simpl; split; congruence).
  destruct (F !! level a) as [[]|]; rewrite ?bool_decide_eq_true;
    intuition congruence.
Qed.

(** A level named like a member of [Object.prototype] passes a filter
    that has no key for it. *)
Example doFilter_inherited_level :
  evalEntries
    (this ← constructor
       (propsFor 0 (Some {[ "info" := true; "error" := false ]}) None false);
     sortFilterList this noOptions)
    (storeOf [[withLevel "warn" "disk almost full";
               withLevel "constructor" "built";
               withLevel "" "no level"]])
  = Ok [withLevel "constructor" "built"].
Proof. vm_compute. reflexivity. Qed.

(** C6, amended: a filter map that lacks level keys is not treated as
    "no filter".  With no search and the default sort, the filter stage
    returns R unchanged exactly when the keys the map has all carry the
    same value.  When one is true and one is false it returns, in the
    order of R, exactly the records whose level is not empty and reads
    truthy in the map: the level is a key set to true, or it is no key of
    the map and names a member of [Object.prototype], which the read
    finds on the prototype chain.  So a record whose level has no entry
    in the map and is no such name is dropped. *)
Theorem C6_filter_fails_closed `{Host} (this : LogTable) (o : SortFilterListOptions)
    (w : World) (f : LogFile) (F : LevelFilter) (R : list LogEntry) :
  usedLogFile this o = Some f ->
  entryArrays w !! logEntries f = Some R ->
  usedFilter this o = Some F ->
  Js.truthy_opt (usedSearch this o) = false ->
  usedSortBy this o = Some "index" ->
  usedSortDirection this o = Some SORT_TYPES.ASC ->
  evalEntries (sortFilterList this o) w
  = Ok (if shouldFilter this (Some F) then List.filter (doFilter F) R else R)
  /\ (shouldFilter this (Some F) = true <->
      (exists k, F !! k = Some true) /\ (exists k, F !! k = Some false))
  /\ (forall a, doFilter F a = true <->
        level a <> ""
        /\ (F !! level a = Some true
            \/ (F !! level a = None /\ level a ∈ Js.objectPrototype)))
  /\ (forall a, shouldFilter this (Some F) = true ->
        F !! level a = None -> level a ∉ Js.objectPrototype ->
        a ∉ List.filter (doFilter F) R).
Proof.
  intros Hf HR HF Hsearch Hby Hdir.
  rewrite (evalEntries_sortFilterList _ _ _ _ _ Hf HR).
  split; [|split; [apply shouldFilter_mixed|split; [apply doFilter_keeps|]]].
  - unfold pipeline, filterStage, searchStage, sortStage, reverseStage.
    rewrite HF, Hby, Hdir.
    destruct (shouldFilter this (Some F)); simpl;
      destruct (usedSearch this o) as [s|]; simpl in *; by rewrite ?Hsearch.
  - intros a _ Ha Hno [_ Hkeep]%elem_of_List_filter.
    apply doFilter_keeps in Hkeep as [_ [Hkeep|[_ Hkeep]]]; [congruence|done].
Qed.

(** The theorem of C6 at the filter [{info: true, error: false}] on a
    record of level info and one of level warn. *)
Lemma C6_witness :
  evalEntries
    (sortFilterList
       {| props := propsFor 0 (Some {[ "info" := true; "error" := false ]}) None false;
          state := {| sortedList := 1; searchList := 0; selectedIndex := None;
                      sortBy := Some "index"; sortDirection := Some SORT_TYPES.ASC;
                      ignoreSearchIndex := false |} |}
       noOptions)
    (storeOf [[withLevel "info" "started"; withLevel "warn" "disk almost full"]; []])
  = Ok [withLevel "info" "started"].
Proof.
  destruct (@C6_filter_fails_closed ascii_host
              {| props := propsFor 0 (Some {[ "info" := true; "error" := false ]}) None false;
                 state := {| sortedList := 1; searchList := 0; selectedIndex := None;
                             sortBy := Some "index"; sortDirection := Some SORT_TYPES.ASC;
                             ignoreSearchIndex := false |} |}
              noOptions
              (storeOf [[withLevel "info" "started"; withLevel "warn" "disk almost full"]; []])
              {| logType := "browser"; logEntries := 0 |}
              {[ "info" := true; "error" := false ]}
              [withLevel "info" "started"; withLevel "warn" "disk almost full"]
              eq_refl eq_refl eq_refl eq_refl eq_refl eq_refl) as [Hres _].
  vm_compute in Hres. vm_compute. exact Hres.
Defined.

(** ** Sorting: claims C7 and C8 *)

Section SortClaims.

Context `{Host}.

(** What a call of [sortFilterList] on a log file leaves behind. *)
Lemma sortFilterList_result (this : LogTable) (o : SortFilterListOptions)
    (w : World) (f : LogFile) (R : list LogEntry) :
  usedLogFile this o = Some f ->
  entryArrays w !! logEntries f = Some R ->
  match pipeline this o R with
  | Ok l =>
      exists r w',
        run (sortFilterList this o) w = (Ok r, w')
        /\ entriesAt w' r = l
        /\ (fastPath this o = false -> r <> logEntries f)
        /\ entriesAt w' (logEntries f) = R
        /\ started w w'
  | Throw e =>
      exists w', run (sortFilterList this o) w = (Throw e, w') /\ started w w'
  end.
Proof.
  intros Hf HR.
  pose proof (evalEntries_sortFilterList this o w f R Hf HR) as Heval.
  pose proof (sortFilterList_run this o w) as Hrun. rewrite Hf in Hrun. cbv zeta in Hrun.
  destruct (sortFilterList_started this o w) as [Hst Hfr].
  { intros f' Hf'. rewrite Hf in Hf'. injection Hf' as <-. by eapply lookup_lt_Some. }
  unfold evalEntries in Heval.
  destruct (run (sortFilterList this o) w) as [[r|e'] w'] eqn:Hres; simpl in *.
  - rewrite <- Heval. exists r, w'. split; [done|]. split; [done|].
    split; [|split; [|done]].
    + intros Hfast. rewrite Hfast in Hrun.
      specialize (Hrun (lookup_lt_Some _ _ _ HR)).
      rewrite (entriesAt_lookup _ _ _ HR), <- Heval in Hrun.
      destruct Hrun as (_ & [Hge _] & _). simpl in Hge.
      apply lookup_lt_Some in HR. lia.
    + rewrite (entriesAt_prefix w w'); [by apply entriesAt_lookup|apply Hfr|].
      by eapply lookup_lt_Some.
  - rewrite <- Heval. by exists w'.
Qed.

End SortClaims.

(** C7, counterexample: a table showing only the matches of ["foo"] is
    mounted and the header of the index column is clicked, which changes
    nothing but the sort direction.  The log shows the pipeline starting
    over and the search step running again on that click. *)
Lemma C7_counterexample_search_runs_again :
  match run (mounted (propsFor 0 None (Some "foo") true))
          (storeOf [[withMessage "foo"; withMessage "bar"]]) with
  | (Ok this, w) =>
      debugLog (run (LogTableHeaderCell.onSortChange "index" this) w).2
      = debugLog w ++ ["Starting filter"; "Filter-Searching for foo";
                       "Sorting by index (aka doing nothing)"; "Reversing"]
  | _ => False
  end.
Proof. vm_compute. reflexivity. Qed.

(** C7, amended: when [onSortChange] is called with a sort key or
    direction that differs from the current one, the table runs the whole
    pipeline again from the records of the log file, with the level filter
    and the search of its current props: it keeps no filtered and searched
    base sequence, and Filter and Search are run again.  The new displayed
    sequence is the sort by the new key, reversed if the new direction is
    descending, of the sequence Filter and Search yield on that run, where
    an empty new key or direction falls back to the current one
    ([options.sortBy || this.state.sortBy]); if the search throws, so does
    the call. *)
Theorem C7_sort_change_reruns_pipeline `{Host} (this : LogTable)
    (sortBy' sortDirection' : string) (w : World) (f : LogFile) (R : list LogEntry) :
  logFile (props this) = Some f ->
  entryArrays w !! logEntries f = Some R ->
  sortBy (state this) <> Some sortBy'
  \/ sortDirection (state this) <> Some sortDirection' ->
  match
    res_bind (filterStage this (levelFilter (props this)) R)
      (searchStage (search (props this)) (showOnlySearchResults (props this)))
  with
  | Ok base =>
      exists this' w',
        run (onSortChange this sortBy' sortDirection') w = (Ok this', w')
        /\ entriesAt w' (sortedList (state this'))
           = reverseStage (Js.or_else_opt (Some sortDirection') (sortDirection (state this)))
               (sortStage (Js.or_else_opt (Some sortBy') (sortBy (state this))) base)
        /\ sortBy (state this') = Some sortBy'
        /\ sortDirection (state this') = Some sortDirection'
        /\ props this' = props this
        /\ started w w'
  | Throw e =>
      exists w', run (onSortChange this sortBy' sortDirection') w = (Throw e, w')
                 /\ started w w'
  end.
Proof.
  intros Hf HR Hnew. unfold onSortChange, run.
  assert (Hsort : negb (bool_decide (sortBy (state this) = Some sortBy'))
                  || negb (bool_decide (sortDirection (state this) = Some sortDirection'))
                  = true).
  { destruct Hnew as [Hn|Hn]; rewrite (bool_decide_eq_false_2 _ Hn); simpl;
      [done|by rewrite orb_true_r]. }
  rewrite Hsort, run_bind.
  match goal with |- context [sortFilterList this ?o'] => set (o := o') end.
  pose proof (sortFilterList_result this o w f R Hf HR) as Hres.
  unfold pipeline in Hres.
  change (usedFilter this o) with (levelFilter (props this)) in Hres.
  change (usedSearch this o) with (search (props this)) in Hres.
  change (usedShowOnly this o) with (showOnlySearchResults (props this)) in Hres.
  change (usedSortBy this o)
    with (Js.or_else_opt (Some sortBy') (sortBy (state this))) in Hres.
  change (usedSortDirection this o)
    with (Js.or_else_opt (Some sortDirection') (sortDirection (state this))) in Hres.
  unfold run in Hres.
  destruct (filterStage this (levelFilter (props this)) R) as [l1|e]; simpl in *.
  - destruct (searchStage (search (props this)) (showOnlySearchResults (props this)) l1)
      as [base|e]; simpl in *.
    + destruct Hres as (r & w' & -> & Hl & _ & _ & Hst).
      eexists _, w'. split; [reflexivity|]. simpl. by repeat split.
    + destruct Hres as (w' & -> & Hst). by exists w'.
  - destruct Hres as (w' & -> & Hst). by exists w'.
Qed.

(** C8, counterexample: with the default sort, no level filter and the
    search text ["foo"] highlighted rather than used as a filter, the
    pipeline does not hand out the log file's own array (address 0): it
    returns a copy, the new array at address 2. *)
Lemma C8_counterexample_copy_when_search_highlights :
  run (this ← constructor (propsFor 0 None (Some "foo") false);
       sortFilterList this noOptions)
    (storeOf [[withMessage "foo"; withMessage "bar"]])
  = (Ok 2,
     {| entryArrays := [[withMessage "foo"; withMessage "bar"]; [];
                        [withMessage "foo"; withMessage "bar"]];
        numberArrays := [[]];
        debugLog := ["Starting filter"; "Sorting by index (aka doing nothing)"];
        sleuth := {| selectedEntry := None; isDetailsVisible := false |} |}).
Proof. vm_compute. reflexivity. Qed.

(** C8, amended: when the sort key is index or unset, the direction is
    ascending or unset and no level filtering is in effect, the pipeline
    returns the log file's own array, with no copy, provided the search
    text is empty or absent.  When there is a search text that is only
    highlighted (only-show-matches is off), it returns a new array that
    holds the same records in the same order, and leaves the log file's
    array as it was. *)
Theorem C8_early_return_needs_empty_search `{Host} (this : LogTable)
    (o : SortFilterListOptions) (w : World) (f : LogFile) (R : list LogEntry) :
  usedLogFile this o = Some f ->
  entryArrays w !! logEntries f = Some R ->
  Js.truthy_opt (usedSortBy this o) = false \/ usedSortBy this o = Some "index" ->
  Js.truthy_opt (usedSortDirection this o) = false
  \/ usedSortDirection this o = Some SORT_TYPES.ASC ->
  shouldFilter this (usedFilter this o) = false ->
  (Js.truthy_opt (usedSearch this o) = false ->
     run (sortFilterList this o) w
     = (Ok (logEntries f), set_debugLog (debugLog w ++ ["Starting filter"]) w))
  /\ (Js.truthy_opt (usedSearch this o) = true -> usedShowOnly this o = false ->
        exists r w',
          run (sortFilterList this o) w = (Ok r, w')
          /\ r <> logEntries f
          /\ entriesAt w' r = R
          /\ entriesAt w' (logEntries f) = R).
Proof.
  intros Hf HR Hby Hdir Hfilter.
  assert (HnoSort :
    (negb (Js.truthy_opt (usedSortBy this o)) || Js.opt_is (usedSortBy this o) "index")
    && (negb (Js.truthy_opt (usedSortDirection this o))
        || Js.opt_is (usedSortDirection this o) SORT_TYPES.ASC) = true).
  { apply andb_true_intro. split; apply orb_true_iff.
    - destruct Hby as [->| ->]; [by left|by right].
    - destruct Hdir as [->| ->]; [by left|by right]. }
  split.
  - intros Hsearch. pose proof (sortFilterList_run this o w) as Hrun.
    rewrite Hf in Hrun. cbv zeta in Hrun.
    unfold fastPath in Hrun. by rewrite HnoSort, Hfilter, Hsearch in Hrun.
  - intros Hsearch Hshow.
    pose proof (sortFilterList_result this o w f R Hf HR) as Hres.
    assert (Hfast : fastPath this o = false).
    { unfold fastPath. by rewrite HnoSort, Hfilter, Hsearch. }
    assert (Hpipe : pipeline this o R = Ok R).
    { unfold pipeline, filterStage, searchStage, sortStage, reverseStage.
      rewrite Hfilter, Hshow; simpl.
      destruct (usedSearch this o) as [s|]; [|done]. rewrite andb_false_r. simpl.
      f_equal. unfold Js.opt_is, SORT_TYPES.ASC, SORT_TYPES.DESC in *.
      destruct Hby as [Hby|Hby], Hdir as [Hdir|Hdir];
        destruct (usedSortBy this o) as [[|c by']|];
        destruct (usedSortDirection this o) as [[|d dir']|]; simpl in *;
        repeat case_bool_decide; simplify_eq; done. }
    rewrite Hpipe in Hres. destruct Hres as (r & w' & Hrun & Hl & Hne & Hsrc & _).
    exists r, w'. auto.
Qed.

(** The theorem of C7 on a change to the message column, descending. *)
Lemma C7_witness :
  exists this' w',
    run (onSortChange
           {| props := propsFor 0 None None false;
              state := {| sortedList := 0; searchList := 0; selectedIndex := None;
                          sortBy := Some "index"; sortDirection := Some SORT_TYPES.ASC;
                          ignoreSearchIndex := false |} |}
           "message" SORT_TYPES.DESC)
      (storeOf [[withMessage "b"; withMessage "a"; withMessage "c"]])
    = (Ok this', w')
    /\ entriesAt w' (sortedList (state this'))
       = [withMessage "c"; withMessage "b"; withMessage "a"].
Proof.
  pose proof (@C7_sort_change_reruns_pipeline ascii_host
                {| props := propsFor 0 None None false;
                   state := {| sortedList := 0; searchList := 0; selectedIndex := None;
                               sortBy := Some "index"; sortDirection := Some SORT_TYPES.ASC;
                               ignoreSearchIndex := false |} |}
                "message" SORT_TYPES.DESC
                (storeOf [[withMessage "b"; withMessage "a"; withMessage "c"]])
                {| logType := "browser"; logEntries := 0 |}
                [withMessage "b"; withMessage "a"; withMessage "c"]
                eq_refl eq_refl) as Hthm.
  specialize (Hthm ltac:(left; discriminate)).
  vm_compute in Hthm. destruct Hthm as (this' & w' & Hrun & Hl & _).
  exists this', w'. vm_compute. split; [exact Hrun|exact Hl].
Defined.

(** The theorem of C8 on a freshly constructed table without search. *)
Lemma C8_witness :
  run (sortFilterList
         {| props := propsFor 0 None None false;
            state := {| sortedList := 1; searchList := 0; selectedIndex := None;
                        sortBy := Some "index"; sortDirection := Some SORT_TYPES.ASC;
                        ignoreSearchIndex := false |} |}
         noOptions)
    (storeOf [[withMessage "b"; withMessage "a"]; []])
  = (Ok 0,
     set_debugLog ["Starting filter"] (storeOf [[withMessage "b"; withMessage "a"]; []])).
Proof.
  destruct (@C8_early_return_needs_empty_search ascii_host
              {| props := propsFor 0 None None false;
                 state := {| sortedList := 1; searchList := 0; selectedIndex := None;
                             sortBy := Some "index"; sortDirection := Some SORT_TYPES.ASC;
                             ignoreSearchIndex := false |} |}
              noOptions
              (storeOf [[withMessage "b"; withMessage "a"]; []])
              {| logType := "browser"; logEntries := 0 |}
              [withMessage "b"; withMessage "a"]
              eq_refl eq_refl (or_intror eq_refl) (or_intror eq_refl) eq_refl)
    as [Hsame _].
  specialize (Hsame eq_refl). vm_compute in Hsame. vm_compute. exact Hsame.
Defined.

(** ** When the pipeline runs: claim C5 *)

Lemma bind_Array_length {B} (r : ref) (f : nat -> M B) (w : World) :
  (Array_length r ≫= f) w = f (length (entriesAt w r)) w.
Proof. reflexivity. Qed.

Section ChangeDetection.

Context `{Host}.

Lemma doSearchIndex_frame (search : string) (list : ref) (w : World) :
  frame w (run (doSearchIndex search list) w).2.
Proof.
  pose proof (doSearchIndex_run search list w) as Hrun.
  destruct (searchIndex_model search (entriesAt w list)).
  - by destruct Hrun as (w' & -> & _ & _ & Hfr).
  - by destruct Hrun as (w' & -> & Hfr).
Qed.

(** With nothing changed the hook leaves the store alone. *)
Lemma componentWillReceiveProps_unchanged (this : LogTable) (nextProps : LogTableProps)
    (w : World) :
  propsChangedAt w this nextProps = false ->
  run (componentWillReceiveProps this nextProps) w
  = (Ok (cursorMoved this nextProps this), w).
Proof.
  unfold propsChangedAt, fileChangedAt, componentWillReceiveProps, cursorMoved, run.
  intros Hc. rewrite run_bind.
  destruct (logFile (props this)) as [f|], (logFile nextProps) as [g|];
    rewrite ?bind_Array_length, ?bind_mret, ?run_mret; cbv beta iota;
    rewrite Hc, bind_mret;
    by destruct (negb (bool_decide (searchIndex (props this) = searchIndex nextProps))).
Qed.

(** With a change the hook runs the pipeline. *)
Lemma componentWillReceiveProps_changed (this : LogTable) (nextProps : LogTableProps)
    (w : World) :
  (forall f, logFile (props this) = Some f \/ logFile nextProps = Some f ->
             logEntries f < length (entryArrays w)) ->
  propsChangedAt w this nextProps = true ->
  started w (run (componentWillReceiveProps this nextProps) w).2.
Proof.
  unfold propsChangedAt, fileChangedAt, componentWillReceiveProps, run.
  intros Hvalid Hc. rewrite run_bind.
  match goal with |- context [sortFilterList this ?o'] => set (o := o') end.
  destruct (sortFilterList_started this o w) as [Hst _].
  { intros f Hf. apply Hvalid. unfold usedLogFile in Hf; simpl in Hf.
    destruct (logFile nextProps); simpl in Hf; [right|left]; done. }
  unfold run in Hst.
  assert (Hrest : forall (k : LogTable -> M LogTable) (sortedList : ref) (w1 : World),
    (forall t w2, (k t w2).2 = w2) ->
    started w w1 ->
    started w
      (((newNumberArray [] ≫= fun searchList =>
         match search nextProps with
         | Some nextSearch =>
             if negb (showOnlySearchResults nextProps) && Js.truthy nextSearch then
               debug "showOnlySearchResults is false, making search list";;
               doSearchIndex nextSearch sortedList
             else mret searchList
         | None => mret searchList
         end ≫= fun searchList =>
         mret (setState (fun s => with_searchList searchList
                                    (with_sortedList sortedList s)) this)) ≫= k) w1).2).
  { intros k sortedList w1 Hk Hst1. rewrite bind_assoc, bind_newNumberArray.
    set (w2 := set_numberArrays _ w1).
    assert (Hst2 : started w w2) by done.
    destruct (search nextProps) as [s|];
      [|by repeat (rewrite bind_assoc || rewrite bind_mret); rewrite Hk].
    destruct (negb (showOnlySearchResults nextProps) && Js.truthy s);
      [|by repeat (rewrite bind_assoc || rewrite bind_mret); rewrite Hk].
    rewrite !bind_assoc, bind_debug.
    set (w3 := set_debugLog _ w2).
    assert (Hst3 : started w w3).
    { eapply started_frame; [exact Hst2|apply frame_debug]. }
    pose proof (doSearchIndex_frame s sortedList w3) as Hfr. unfold run in Hfr.
    rewrite run_bind.
    destruct (doSearchIndex s sortedList w3) as [[r|e] w4]; simpl in *.
    - rewrite bind_mret, Hk. by eapply started_frame.
    - by eapply started_frame. }
  assert (Hk : forall t w2,
    ((if negb (bool_decide (searchIndex (props this) = searchIndex nextProps))
      then mret (setState (with_ignoreSearchIndex false) t)
      else mret t) : M LogTable) w2 = (Ok (cursorMoved this nextProps t), w2)).
  { intros t w2. unfold cursorMoved.
    by destruct (negb (bool_decide (searchIndex (props this) = searchIndex nextProps))). }
  destruct (logFile (props this)) as [f|], (logFile nextProps) as [g|];
    rewrite ?bind_Array_length, ?bind_mret, ?run_mret; cbv beta iota;
    rewrite Hc, !bind_assoc, run_bind;
    destruct (sortFilterList this o w) as [[r|e] w1]; simpl in Hst; try done;
    apply Hrest; try done; intros t w2; by rewrite Hk.
Qed.

End ChangeDetection.

Section Policy.

Context `{Host}.

Lemma negb_bool_decide_true (P : Prop) `{Decision P} :
  negb (bool_decide P) = true <-> ~ P.
Proof. rewrite negb_true_iff. apply bool_decide_eq_false. Qed.

Lemma propsChangedAt_spec (w : World) (this : LogTable) (nextProps : LogTableProps) :
  propsChangedAt w this nextProps = true <-> propsChanged w this nextProps.
Proof.
  unfold propsChangedAt, propsChanged, didFilterChange.
  rewrite !orb_true_iff, !negb_bool_decide_true.
  assert (Hfile : fileChangedAt w (logFile (props this)) (logFile nextProps) = true
                  <-> sourceChanged w (logFile (props this)) (logFile nextProps)).
  { unfold fileChangedAt, sourceChanged.
    destruct (logFile (props this)) as [f|], (logFile nextProps) as [g|]; try done.
    by rewrite orb_true_iff, negb_bool_decide_true, negb_true_iff, Nat.eqb_neq. }
  rewrite Hfile. tauto.
Qed.

Lemma onSortChange_same (this : LogTable) (sortBy' sortDirection' : string) (w : World) :
  sortBy (state this) = Some sortBy' ->
  sortDirection (state this) = Some sortDirection' ->
  run (onSortChange this sortBy' sortDirection') w = (Ok this, w).
Proof.
  intros Hby Hdir. unfold onSortChange, run.
  by rewrite !bool_decide_eq_true_2 by done.
Qed.

Lemma onSortChange_new (this : LogTable) (sortBy' sortDirection' : string) (w : World) :
  (forall f, logFile (props this) = Some f -> logEntries f < length (entryArrays w)) ->
  sortBy (state this) <> Some sortBy' \/ sortDirection (state this) <> Some sortDirection' ->
  started w (run (onSortChange this sortBy' sortDirection') w).2.
Proof.
  intros Hvalid Hnew. unfold onSortChange, run.
  assert (Hsort : negb (bool_decide (sortBy (state this) = Some sortBy'))
                  || negb (bool_decide (sortDirection (state this) = Some sortDirection'))
                  = true).
  { rewrite orb_true_iff, !negb_bool_decide_true. tauto. }
  rewrite Hsort, run_bind.
  match goal with |- context [sortFilterList this ?o'] => set (o := o') end.
  destruct (sortFilterList_started this o w) as [Hst _]; [exact Hvalid|].
  unfold run in Hst. by destruct (sortFilterList this o w) as [[r|e] w1].
Qed.

Lemma shouldComponentUpdate_same (this : LogTable) (w : World) :
  run (shouldComponentUpdate this (props this) (state this)) w = (Ok false, w).
Proof.
  unfold shouldComponentUpdate, run, didFilterChange.
  rewrite !bool_decide_eq_true_2 by done. simpl.
  destruct (logFile (props this)) as [f|];
    rewrite ?bind_assoc, ?bind_Array_length, ?bind_mret;
    rewrite ?bind_assoc, ?bind_Array_length, ?bind_mret;
    rewrite ?bind_Array_length, ?Nat.eqb_refl, ?bool_decide_eq_true_2 by done;
    reflexivity.
Qed.

End Policy.

(** C5, counterexample: the table shows the log file whose entries are
    the array at address 0; new props bring a log file of the same type
    whose entries are another array, at address 1, of the same length.
    The record source changed, yet the hook does not run the pipeline: the
    store is left as it was and the table still shows the old record. *)
Lemma C5_counterexample_source_replaced :
  match run (mounted (propsFor 0 None None false))
          (storeOf [[withMessage "old"]; [withMessage "new"]]) with
  | (Ok this, w) =>
      run (componentWillReceiveProps this (propsFor 1 None None false)) w = (Ok this, w)
      /\ entriesAt w (sortedList (state this)) = [withMessage "old"]
      /\ entriesAt w 1 = [withMessage "new"]
  | _ => False
  end.
Proof. vm_compute. repeat split. Qed.

(** C5, amended: in a store where the log files of the previous and the
    next props are allocated,
    - componentWillReceiveProps runs the pipeline if and only if the level
      filter changed value by value, or the search text or the
      only-show-matches flag changed, or a record source appears where
      there was none, or both are present and their lengths or their
      logical types differ; the identity of the record source is not
      compared, and a source that goes away does not count;
    - when none of these holds, the hook leaves the store untouched and
      the displayed sequence and the match list are the same arrays, so a
      move of the search cursor alone runs nothing;
    - onSortChange runs the pipeline if and only if the sort key or the
      direction differs from the current one;
    - a row click runs nothing and leaves both lists alone;
    - presenting the same props again runs nothing, changes no state, and
      asks for no re-render. *)
Theorem C5_recompute_policy `{Host} (this : LogTable) (nextProps : LogTableProps)
    (w : World) :
  (forall f, logFile (props this) = Some f \/ logFile nextProps = Some f ->
             logEntries f < length (entryArrays w)) ->
  (started w (run (componentWillReceiveProps this nextProps) w).2
   <-> propsChanged w this nextProps)
  /\ (~ propsChanged w this nextProps ->
      exists this',
        run (componentWillReceiveProps this nextProps) w = (Ok this', w)
        /\ sortedList (state this') = sortedList (state this)
        /\ searchList (state this') = searchList (state this))
  /\ (forall sortBy' sortDirection',
        started w (run (onSortChange this sortBy' sortDirection') w).2
        <-> sortBy (state this) <> Some sortBy'
            \/ sortDirection (state this) <> Some sortDirection')
  /\ (forall index,
        exists this' w',
          run (onRowClick this index) w = (Ok this', w')
          /\ debugLog w' = debugLog w
          /\ entryArrays w' = entryArrays w
          /\ numberArrays w' = numberArrays w
          /\ sortedList (state this') = sortedList (state this)
          /\ searchList (state this') = searchList (state this))
  /\ run (componentWillReceiveProps this (props this)) w = (Ok this, w)
  /\ run (shouldComponentUpdate this (props this) (state this)) w = (Ok false, w).
Proof.
  intros Hvalid.
  assert (Hno : ~ propsChanged w this nextProps ->
    run (componentWillReceiveProps this nextProps) w
    = (Ok (cursorMoved this nextProps this), w)).
  { intros Hn. apply componentWillReceiveProps_unchanged.
    destruct (propsChangedAt w this nextProps) eqn:Hc; [|done].
    by apply propsChangedAt_spec in Hc. }
  split; [|split; [|split; [|split; [|split]]]].
  - split.
    + intros Hst. destruct (propsChangedAt w this nextProps) eqn:Hc.
      * by apply propsChangedAt_spec.
      * rewrite componentWillReceiveProps_unchanged in Hst by done.
        by apply not_started_same_log in Hst.
    + intros Hc%propsChangedAt_spec. by apply componentWillReceiveProps_changed.
  - intros Hn. rewrite (Hno Hn). eexists. split; [reflexivity|].
    unfold cursorMoved.
    by destruct (negb (bool_decide (searchIndex (props this) = searchIndex nextProps))).
  - intros sortBy' sortDirection'. split.
    + intros Hst.
      destruct (decide (sortBy (state this) = Some sortBy')) as [Hby|Hby]; [|by left].
      destruct (decide (sortDirection (state this) = Some sortDirection')) as [Hdir|Hdir];
        [|by right].
      rewrite (onSortChange_same _ _ _ _ Hby Hdir) in Hst.
      by apply not_started_same_log in Hst.
    + apply onSortChange_new. intros f Hf. apply Hvalid. by left.
  - intros index.
    exists (setState (fun s => with_ignoreSearchIndex true
                                 (with_selectedIndex (Some index) s)) this),
           (set_sleuth {| selectedEntry := entriesAt w (sortedList (state this)) !! index;
                          isDetailsVisible := true |} w).
    by repeat split.
  - assert (Hsame : ~ propsChanged w this (props this)).
    { unfold propsChanged, sourceChanged.
      destruct (logFile (props this)); intuition congruence. }
    rewrite componentWillReceiveProps_unchanged.
    + unfold cursorMoved. by rewrite bool_decide_eq_true_2.
    + destruct (propsChangedAt w this (props this)) eqn:Hc; [|done].
      by apply propsChangedAt_spec in Hc.
  - apply shouldComponentUpdate_same.
Qed.

(** The theorem of C5 when the same props are presented again. *)
Lemma C5_witness :
  run (componentWillReceiveProps
         {| props := propsFor 0 None (Some "foo") false;
            state := {| sortedList := 0; searchList := 0; selectedIndex := None;
                        sortBy := Some "index"; sortDirection := Some SORT_TYPES.ASC;
                        ignoreSearchIndex := false |} |}
         (propsFor 0 None (Some "foo") false))
    (storeOf [[withMessage "foo"; withMessage "bar"]])
  = (Ok {| props := propsFor 0 None (Some "foo") false;
           state := {| sortedList := 0; searchList := 0; selectedIndex := None;
                       sortBy := Some "index"; sortDirection := Some SORT_TYPES.ASC;
                       ignoreSearchIndex := false |} |},
     storeOf [[withMessage "foo"; withMessage "bar"]]).
Proof.
  destruct (@C5_recompute_policy ascii_host
              {| props := propsFor 0 None (Some "foo") false;
                 state := {| sortedList := 0; searchList := 0; selectedIndex := None;
                             sortBy := Some "index"; sortDirection := Some SORT_TYPES.ASC;
                             ignoreSearchIndex := false |} |}
              (propsFor 0 None (Some "foo") false)
              (storeOf [[withMessage "foo"; withMessage "bar"]]))
    as (_ & _ & _ & _ & Hsame & _).
  - intros f [[= <-]|[= <-]]; simpl; lia.
  - exact Hsame.
Defined.

(** * Further properties of the component *)

(** ** The two searches *)

Lemma List_filter_sublist {A} (p : A -> bool) (l : list A) :
  List.filter p l `sublist_of` l.
Proof.
  induction l as [|a l IH]; simpl; [done|].
  destruct (p a); [by apply sublist_skip|by apply sublist_cons].
Qed.

Lemma List_filter_andb {A} (p q : A -> bool) (l : list A) :
  List.filter q (List.filter p l) = List.filter (fun a => p a && q a) l.
Proof.
  induction l as [|a l IH]; simpl; [done|].
  destruct (p a); simpl; [destruct (q a)|]; by rewrite IH.
Qed.

Lemma List_filter_idem {A} (p : A -> bool) (l : list A) :
  List.filter p (List.filter p l) = List.filter p l.
Proof.
  rewrite List_filter_andb. apply filter_ext. intros a. by destruct (p a).
Qed.

Lemma List_filter_all {A} (p : A -> bool) (l : list A) :
  (forall a, p a = true) -> List.filter p l = l.
Proof. intros Hp. induction l as [|a l IH]; simpl; [done|]. by rewrite Hp, IH. Qed.

Lemma positionsFrom_all (p : LogEntry -> bool) (l : list LogEntry) :
  (forall a, p a = true) -> forall i, positionsFrom p i l = seq i (length l).
Proof.
  intros Hp. induction l as [|a l IH]; intros i; simpl; [done|].
  by rewrite Hp, IH.
Qed.

Section SearchProperties.

Context `{Host}.

Lemma filterTerms_sublist (search : string) (params : list string) :
  forall re l l', filterTerms search re l params = Ok l' -> l' `sublist_of` l.
Proof.
  induction params as [|param params IH]; intros re l l'; simpl.
  - by intros [= <-].
  - destruct (isExclusion param).
    + destruct (new_RegExp (Js.slice1 param)) as [re'|]; [|done].
      intros Hl'%IH. etrans; [exact Hl'|apply List_filter_sublist].
    + intros Hl'%IH. etrans; [exact Hl'|apply List_filter_sublist].
Qed.

Lemma indexTerms_bound (search : string) (params : list string) :
  forall re l found, indexTerms search re l params = Ok found ->
    forall i, i ∈ found -> i < length l.
Proof.
  assert (Hpos : forall p (l : list LogEntry) i, i ∈ positionsFrom p 0 l -> i < length l).
  { intros p l i (a & _ & Ha & _)%elem_of_positionsFrom.
    rewrite Nat.sub_0_r in Ha. by eapply lookup_lt_Some. }
  induction params as [|param params IH]; intros re l found; simpl.
  - intros [= <-] i ?%elem_of_nil. done.
  - destruct (isExclusion param).
    + destruct (new_RegExp (Js.slice1 param)) as [re'|]; [|done].
      destruct (indexTerms search re' l params) as [rest|] eqn:Hrest; [|done].
      intros [= <-] i [Hi|Hi]%elem_of_app; [by eapply Hpos|by eapply IH].
    + destruct (indexTerms search re l params) as [rest|] eqn:Hrest; [|done].
      intros [= <-] i [Hi|Hi]%elem_of_app; [by eapply Hpos|by eapply IH].
Qed.

(** A search text none of whose terms is an exclusion term: every term
    runs the same test, that of the whole text. *)
Lemma filterTerms_inclusions (search : string) (re : RegExp) (params : list string) :
  Forall (fun param => isExclusion param = false) params ->
  forall l,
    filterTerms search re
      (List.filter (fun a => negb (Js.truthy search) || regexp_test re (message a)) l)
      params
    = Ok (List.filter (fun a => negb (Js.truthy search) || regexp_test re (message a)) l).
Proof.
  induction 1 as [|param params Hp _ IH]; intros l; simpl; [done|].
  by rewrite Hp, List_filter_idem, IH.
Qed.

Lemma indexTerms_inclusions (search : string) (re : RegExp) (l : list LogEntry)
    (params : list string) :
  Forall (fun param => isExclusion param = false) params ->
  indexTerms search re l params
  = Ok (concat (replicate (length params)
          (positionsFrom (fun a => negb (Js.truthy search)
                                   || regexp_test re (message a)) 0 l))).
Proof.
  induction 1 as [|param params Hp _ IH]; simpl; [done|].
  by rewrite Hp, IH.
Qed.

Lemma filterTerms_exclusions (search : string) (params : list string) :
  Js.truthy search = true ->
  Forall (fun param => isExclusion param = true /\ is_Some (new_RegExp (Js.slice1 param)))
    params ->
  forall re l,
    filterTerms search re l params
    = Ok (List.filter (fun a => forallb (fun param => negb (excludedBy param a)) params) l).
Proof.
  intros Htr. induction 1 as [|param params [Hp [re' Hre']] _ IH]; intros re l; simpl.
  - by rewrite List_filter_all.
  - rewrite Hp, Hre', IH, List_filter_andb, Htr. f_equal. apply filter_ext.
    intros a. unfold excludedBy. by rewrite Hre'.
Qed.

End SearchProperties.

(** X1: [doSearchFilter] never hands back the array it was given and
    never changes it: a successful call returns a new array whose records
    are a sublist of those of [list], in their order, and [list] still
    holds what it held. *)
Theorem X1_doSearchFilter_returns_new_sublist `{Host}
    (search : string) (list : ref) (R : Datatypes.list LogEntry) (w : World)
    (list' : ref) (w' : World) :
  entryArrays w !! list = Some R ->
  run (doSearchFilter search list) w = (Ok list', w') ->
  list' <> list
  /\ entriesAt w' list' `sublist_of` R
  /\ entryArrays w' !! list = Some R.
Proof.
  intros HR Hrun.
  pose proof (doSearchFilter_run search list w (lookup_lt_Some _ _ _ HR)) as Hspec.
  rewrite (entriesAt_lookup _ _ _ HR) in Hspec. unfold searchFilter in Hspec.
  destruct (new_RegExp search) as [re|].
  - destruct (filterTerms search re R (Js.split_space search)) as [l|e] eqn:Hl.
    + destruct Hspec as (r & w1 & Hrun1 & Hcont & [Hge _] & Hfr).
      rewrite Hrun in Hrun1. injection Hrun1 as <- <-.
      apply lookup_lt_Some in HR as Hlt. split; [lia|]. split.
      * rewrite Hcont. by eapply filterTerms_sublist.
      * destruct (frame_entries _ _ Hfr) as [k ->]. by apply lookup_app_l_Some.
    + destruct Hspec as (w1 & Hrun1 & _). by rewrite Hrun in Hrun1.
  - destruct Hspec as (w1 & Hrun1 & _). by rewrite Hrun in Hrun1.
Qed.

(** The theorem of X1 at the search ["!bar"]. *)
Lemma X1_witness :
  2 <> 0
  /\ [withMessage "foo"] `sublist_of` [withMessage "foo"; withMessage "bar"].
Proof.
  destruct (@X1_doSearchFilter_returns_new_sublist ascii_host "!bar" 0
              [withMessage "foo"; withMessage "bar"]
              (storeOf [[withMessage "foo"; withMessage "bar"]; []])
              2
              {| entryArrays := [[withMessage "foo"; withMessage "bar"]; [];
                                 [withMessage "foo"]];
                 numberArrays := [];
                 debugLog := ["Filter-Excluding bar"];
                 sleuth := {| selectedEntry := None; isDetailsVisible := false |} |}
              eq_refl ltac:(vm_compute; reflexivity))
    as (Hne & Hsub & _).
  split; [exact Hne|exact Hsub].
Defined.

(** X2: every position [doSearchIndex] returns is a position of its
    argument; the positions come in a new array and no array of records is
    touched. *)
Theorem X2_doSearchIndex_positions_in_range `{Host}
    (search : string) (list : ref) (R : Datatypes.list LogEntry) (w : World)
    (found : ref) (w' : World) :
  entryArrays w !! list = Some R ->
  run (doSearchIndex search list) w = (Ok found, w') ->
  found = length (numberArrays w)
  /\ entryArrays w' = entryArrays w
  /\ Forall (fun i => i < length R) (numbersAt w' found).
Proof.
  intros HR Hrun. pose proof (doSearchIndex_run search list w) as Hspec.
  rewrite (entriesAt_lookup _ _ _ HR) in Hspec. unfold searchIndex_model in Hspec.
  destruct (new_RegExp search) as [re|].
  - destruct (indexTerms search re R (Js.split_space search)) as [l|e] eqn:Hl.
    + destruct Hspec as (w1 & Hrun1 & Hnum & Hent & _).
      rewrite Hrun in Hrun1. injection Hrun1 as -> <-.
      split; [done|]. split; [done|]. rewrite Hnum.
      apply Forall_forall. intros i Hi. by eapply indexTerms_bound.
    + destruct Hspec as (w1 & Hrun1 & _). by rewrite Hrun in Hrun1.
  - destruct Hspec as (w1 & Hrun1 & _). by rewrite Hrun in Hrun1.
Qed.

(** The theorem of X2 at the search ["!a !b"] on the messages a, b, c. *)
Lemma X2_witness : Forall (fun i => i < 3) [1; 2; 0; 2].
Proof.
  destruct (@X2_doSearchIndex_positions_in_range ascii_host "!a !b" 0
              [withMessage "a"; withMessage "b"; withMessage "c"]
              (storeOf [[withMessage "a"; withMessage "b"; withMessage "c"]])
              0
              {| entryArrays := [[withMessage "a"; withMessage "b"; withMessage "c"]];
                 numberArrays := [[1; 2; 0; 2]];
                 debugLog := ["Index-Excluding a"; "Index-Excluding b"];
                 sleuth := {| selectedEntry := None; isDetailsVisible := false |} |}
              eq_refl ltac:(vm_compute; reflexivity))
    as (_ & _ & Hall).
  exact Hall.
Defined.

(** X3: a search text with several words and no exclusion term works as
    one phrase.  When no term of a non-empty search text starts with [!]
    followed by more, every term is tested with the expression of the whole
    text: [doSearchFilter] keeps the records whose message matches the
    whole text, and [doSearchIndex] lists the positions of those records
    once per term. *)
Theorem X3_inclusion_terms_search_the_whole_text `{Host}
    (search : string) (list : ref) (R : Datatypes.list LogEntry) (w : World)
    (re : RegExp) :
  entryArrays w !! list = Some R ->
  search <> "" ->
  Forall (fun param => isExclusion param = false) (Js.split_space search) ->
  new_RegExp search = Some re ->
  evalEntries (doSearchFilter search list) w
  = Ok (List.filter (fun a => regexp_test re (message a)) R)
  /\ evalNumbers (doSearchIndex search list) w
     = Ok (concat (replicate (length (Js.split_space search))
             (positionsFrom (fun a => regexp_test re (message a)) 0 R))).
Proof.
  intros HR Hne Hterms Hre.
  rewrite (evalEntries_doSearchFilter _ _ _ _ HR), (evalNumbers_doSearchIndex _ _ _ _ HR).
  unfold searchFilter, searchIndex_model. rewrite Hre.
  assert (Htr : Js.truthy search = true) by (by destruct search).
  split.
  - destruct (Js.split_space search) as [|param params] eqn:Hsplit.
    { by destruct search as [|c s]; simpl in Hsplit;
        [|destruct (Ascii.eqb c " "); [|destruct (Js.split_space s)]]. }
    apply Forall_cons in Hterms as [Hp Hps]. simpl. rewrite Hp.
    rewrite (filterTerms_inclusions search re params Hps), Htr. done.
  - rewrite (indexTerms_inclusions search re R _ Hterms), Htr. done.
Qed.

(** The theorem of X3 at the search ["foo bar"]. *)
Lemma X3_witness :
  evalEntries (doSearchFilter "foo bar" 0)
    (storeOf [[withMessage "a foo bar"; withMessage "bar foo"]])
  = Ok [withMessage "a foo bar"]
  /\ evalNumbers (doSearchIndex "foo bar" 0)
       (storeOf [[withMessage "a foo bar"; withMessage "bar foo"]])
     = Ok [0; 0].
Proof.
  pose proof (@X3_inclusion_terms_search_the_whole_text ascii_host "foo bar" 0
                [withMessage "a foo bar"; withMessage "bar foo"]
                (storeOf [[withMessage "a foo bar"; withMessage "bar foo"]])
                (AsciiHost.ReCat (AsciiHost.ReChar "f")
                   (AsciiHost.ReCat (AsciiHost.ReChar "o")
                      (AsciiHost.ReCat (AsciiHost.ReChar "o")
                         (AsciiHost.ReCat (AsciiHost.ReChar " ")
                            (AsciiHost.ReCat (AsciiHost.ReChar "b")
                               (AsciiHost.ReCat (AsciiHost.ReChar "a")
                                  (AsciiHost.ReCat (AsciiHost.ReChar "r")
                                     AsciiHost.ReEps)))))))
                eq_refl) as Hthm.
  specialize (Hthm ltac:(discriminate)).
  specialize (Hthm ltac:(repeat constructor) eq_refl).
  vm_compute in Hthm. vm_compute. exact Hthm.
Defined.

(** X4: a search text made of exclusion terms only keeps the records
    that match none of them.  When every term of a non-empty search text
    is an exclusion term whose rest compiles, and the whole text compiles,
    [doSearchFilter] returns the records of R whose message matches the
    rest of no term. *)
Theorem X4_exclusion_terms_intersect `{Host}
    (search : string) (list : ref) (R : Datatypes.list LogEntry) (w : World)
    (re : RegExp) :
  entryArrays w !! list = Some R ->
  search <> "" ->
  new_RegExp search = Some re ->
  Forall (fun param => isExclusion param = true /\ is_Some (new_RegExp (Js.slice1 param)))
    (Js.split_space search) ->
  evalEntries (doSearchFilter search list) w
  = Ok (List.filter
          (fun a => forallb (fun param => negb (excludedBy param a))
                      (Js.split_space search)) R).
Proof.
  intros HR Hne Hre Hterms.
  rewrite (evalEntries_doSearchFilter _ _ _ _ HR). unfold searchFilter. rewrite Hre.
  apply filterTerms_exclusions; [by destruct search|done].
Qed.

(** The theorem of X4 at the search ["!a !b"] on the messages a, b, c. *)
Lemma X4_witness :
  evalEntries (doSearchFilter "!a !b" 0)
    (storeOf [[withMessage "a"; withMessage "b"; withMessage "c"]])
  = Ok [withMessage "c"].
Proof.
  pose proof (@X4_exclusion_terms_intersect ascii_host "!a !b" 0
                [withMessage "a"; withMessage "b"; withMessage "c"]
                (storeOf [[withMessage "a"; withMessage "b"; withMessage "c"]])) as Hthm.
  specialize (Hthm _ eq_refl ltac:(discriminate) eq_refl).
  specialize (Hthm ltac:(repeat constructor; eexists; vm_compute; reflexivity)).
  vm_compute in Hthm. vm_compute. exact Hthm.
Defined.

(** X5: the empty search text keeps everything.  Once the empty pattern
    compiles, [doSearchFilter("", R)] returns all of R and
    [doSearchIndex("", R)] every position of R, whatever the expression
    would match. *)
Theorem X5_empty_search_keeps_everything `{Host}
    (list : ref) (R : Datatypes.list LogEntry) (w : World) (re : RegExp) :
  entryArrays w !! list = Some R ->
  new_RegExp "" = Some re ->
  evalEntries (doSearchFilter "" list) w = Ok R
  /\ evalNumbers (doSearchIndex "" list) w = Ok (seq 0 (length R)).
Proof.
  intros HR Hre.
  rewrite (evalEntries_doSearchFilter _ _ _ _ HR), (evalNumbers_doSearchIndex _ _ _ _ HR).
  unfold searchFilter, searchIndex_model. rewrite Hre. simpl.
  by rewrite List_filter_all, positionsFrom_all, app_nil_r.
Qed.

(** The theorem of X5 on two records. *)
Lemma X5_witness :
  evalNumbers (doSearchIndex "" 0) (storeOf [[withMessage "a"; withMessage "b"]])
  = Ok [0; 1].
Proof.
  destruct (@X5_empty_search_keeps_everything ascii_host 0
              [withMessage "a"; withMessage "b"]
              (storeOf [[withMessage "a"; withMessage "b"]])
              AsciiHost.ReEps eq_refl eq_refl) as [_ Hall].
  exact Hall.
Defined.

(** ** The pipeline *)

Lemma insert_sorted_Permutation {A} (cmp : A -> A -> comparison) (x : A) (l : list A) :
  insert_sorted cmp x l ≡ₚ x :: l.
Proof.
  induction l as [|y l IH]; simpl; [done|].
  destruct (cmp x y); try done; by rewrite IH, Permutation_swap.
Qed.

Lemma sorted_by_Permutation {A} (cmp : A -> A -> comparison) (l : list A) :
  sorted_by cmp l ≡ₚ l.
Proof.
  unfold sorted_by.
  assert (Hgen : forall acc, fold_left (fun acc x => insert_sorted cmp x acc) l acc ≡ₚ acc ++ l).
  { induction l as [|x l IH]; intros acc; simpl; [by rewrite app_nil_r|].
    rewrite IH, insert_sorted_Permutation. simpl. apply Permutation_middle. }
  by rewrite Hgen.
Qed.

(** Insertion keeps a list sorted, for a comparison in which "not before"
    one way means "not after" the other way. *)
Lemma insert_sorted_Sorted {A} (cmp : A -> A -> comparison) (x : A) (l : list A) :
  (forall a b, cmp a b <> Lt -> cmp b a <> Gt) ->
  Sorted (fun a b => cmp a b <> Gt) l ->
  Sorted (fun a b => cmp a b <> Gt) (insert_sorted cmp x l).
Proof.
  intros Hanti. induction 1 as [|y l Hs IH Hhd]; simpl.
  - by repeat constructor.
  - destruct (cmp x y) eqn:Hxy.
    + constructor; [done|]. destruct l as [|z l]; simpl in *;
        [constructor; apply Hanti; congruence|].
      destruct (cmp x z) eqn:Hxz; constructor; try (apply Hanti; congruence).
      all: by inversion Hhd.
    + repeat constructor; try done. congruence.
    + constructor; [done|]. destruct l as [|z l]; simpl in *;
        [constructor; apply Hanti; congruence|].
      destruct (cmp x z) eqn:Hxz; constructor; try (apply Hanti; congruence).
      all: by inversion Hhd.
Qed.

Lemma sorted_by_Sorted {A} (cmp : A -> A -> comparison) (l : list A) :
  (forall a b, cmp a b <> Lt -> cmp b a <> Gt) ->
  Sorted (fun a b => cmp a b <> Gt) (sorted_by cmp l).
Proof.
  intros Hanti. unfold sorted_by.
  assert (Hgen : forall acc, Sorted (fun a b => cmp a b <> Gt) acc ->
    Sorted (fun a b => cmp a b <> Gt)
      (fold_left (fun acc x => insert_sorted cmp x acc) l acc)).
  { induction l as [|x l IH]; intros acc Hacc; simpl; [done|].
    by apply IH, insert_sorted_Sorted. }
  apply Hgen. constructor.
Qed.

Section PipelineProperties.

Context `{Host}.

Lemma searchStage_sublist (search : option string) (showOnly : bool)
    (l l' : list LogEntry) :
  searchStage search showOnly l = Ok l' -> l' `sublist_of` l.
Proof.
  unfold searchStage, searchFilter. destruct search as [s|]; [|by intros [= <-]].
  destruct (Js.truthy s && showOnly); [|by intros [= <-]].
  destruct (new_RegExp s) as [re|]; [|done]. apply filterTerms_sublist.
Qed.

Lemma filterStage_sublist (this : LogTable) (filter : option LevelFilter)
    (l l' : list LogEntry) :
  filterStage this filter l = Ok l' -> l' `sublist_of` l.
Proof.
  unfold filterStage. destruct (shouldFilter this filter); [|by intros [= <-]].
  destruct filter as [F|]; [|done]. intros [= <-]. apply List_filter_sublist.
Qed.

(** What the pipeline returns, before sorting: a sublist of the records. *)
Lemma pipeline_stages (this : LogTable) (o : SortFilterListOptions)
    (R l : list LogEntry) :
  pipeline this o R = Ok l ->
  exists base,
    base `sublist_of` R
    /\ l = reverseStage (usedSortDirection this o) (sortStage (usedSortBy this o) base).
Proof.
  unfold pipeline.
  destruct (filterStage this (usedFilter this o) R) as [l1|] eqn:H1; [|done]. simpl.
  destruct (searchStage (usedSearch this o) (usedShowOnly this o) l1) as [l2|] eqn:H2;
    [|done]. simpl.
  intros [= <-]. exists l2. split; [|done].
  etrans; [by eapply searchStage_sublist|by eapply filterStage_sublist].
Qed.

End PipelineProperties.

(** X6: without a log file the pipeline yields nothing and throws
    nothing.  When neither the options nor the props carry a log file,
    [sortFilterList] returns a new, empty array whatever the level filter,
    the sort and the search text are - even a search text that is not a
    regular expression, as no expression is built; it writes the one log
    entry it starts with and changes no array that existed. *)
Theorem X6_no_log_file_yields_empty_list `{Host} (this : LogTable)
    (o : SortFilterListOptions) (w : World) :
  usedLogFile this o = None ->
  exists w',
    run (sortFilterList this o) w = (Ok (length (entryArrays w)), w')
    /\ entryArrays w !! length (entryArrays w) = None
    /\ entriesAt w' (length (entryArrays w)) = []
    /\ entryArrays w' = entryArrays w ++ [[]]
    /\ numberArrays w' = numberArrays w
    /\ debugLog w' = debugLog w ++ ["Starting filter"]
    /\ sleuth w' = sleuth w.
Proof.
  intros Hno. pose proof (sortFilterList_run this o w) as Hrun.
  simpl in Hrun. rewrite Hno in Hrun. eexists. split; [exact Hrun|]. simpl.
  split; [by apply lookup_ge_None_2|].
  split; [|done].
  unfold entriesAt; simpl. by rewrite lookup_app_r, Nat.sub_diag by lia.
Qed.

(** The theorem of X6 at a table without a log file whose search text
    does not compile. *)
Lemma X6_witness :
  exists w',
    run (sortFilterList
           {| props := {| logFile := None; levelFilter := None; search := Some "(";
                          dateTimeFormat := ""; showOnlySearchResults := true;
                          searchIndex := 0 |};
              state := {| sortedList := 0; searchList := 0; selectedIndex := None;
                          sortBy := Some "index"; sortDirection := Some SORT_TYPES.ASC;
                          ignoreSearchIndex := false |} |}
           noOptions)
      (storeOf [[withMessage "kept"]])
    = (Ok 1, w')
    /\ entriesAt w' 1 = []
    /\ entriesAt w' 0 = [withMessage "kept"].
Proof.
  destruct (@X6_no_log_file_yields_empty_list ascii_host
              {| props := {| logFile := None; levelFilter := None; search := Some "(";
                             dateTimeFormat := ""; showOnlySearchResults := true;
                             searchIndex := 0 |};
                 state := {| sortedList := 0; searchList := 0; selectedIndex := None;
                             sortBy := Some "index"; sortDirection := Some SORT_TYPES.ASC;
                             ignoreSearchIndex := false |} |}
              noOptions (storeOf [[withMessage "kept"]]) eq_refl)
    as (w' & Hrun & _ & Hempty & Harrays & _).
  exists w'. split; [exact Hrun|]. split; [exact Hempty|].
  unfold entriesAt. rewrite Harrays. reflexivity.
Defined.

(** Mounting such a table fails all the same: [render], which React
    calls before [componentDidMount], throws on the missing log file. *)
Remark mounted_without_log_file `{Host} (p : LogTableProps) (w : World) :
  logFile p = None -> (run (mounted p) w).1 = Throw TypeError.
Proof.
  intros Hno. unfold mounted, constructor, run.
  rewrite !bind_assoc, bind_newEntryArray, !bind_assoc, bind_newNumberArray, bind_mret.
  unfold render; simpl. rewrite Hno. reflexivity.
Qed.

(** X7: the pipeline does not touch the record store.  Although it sorts
    and reverses in place, a call of [sortFilterList] - whether it returns
    or throws - leaves every array that existed before with the records it
    had and every list of positions as it was: the in-place steps work on
    the copy. *)
Theorem X7_pipeline_leaves_existing_arrays `{Host} (this : LogTable)
    (o : SortFilterListOptions) (w : World) :
  (forall f, usedLogFile this o = Some f -> logEntries f < length (entryArrays w)) ->
  (forall r l, entryArrays w !! r = Some l ->
               entryArrays (run (sortFilterList this o) w).2 !! r = Some l)
  /\ (forall r l, numberArrays w !! r = Some l ->
                  numberArrays (run (sortFilterList this o) w).2 !! r = Some l)
  /\ sleuth (run (sortFilterList this o) w).2 = sleuth w.
Proof.
  intros Hvalid. destruct (sortFilterList_started this o w Hvalid) as [_ [He Hn _ Hs]].
  split; [|split; [|done]].
  - intros r l Hr. destruct He as [k ->]. by apply lookup_app_l_Some.
  - intros r l Hr. destruct Hn as [k ->]. by apply lookup_app_l_Some.
Qed.

(** The theorem of X7 on a sort by message, descending. *)
Lemma X7_witness :
  entryArrays
    (run (sortFilterList
            {| props := propsFor 0 None None false;
               state := {| sortedList := 0; searchList := 0; selectedIndex := None;
                           sortBy := Some "message";
                           sortDirection := Some SORT_TYPES.DESC;
                           ignoreSearchIndex := false |} |}
            noOptions)
       (storeOf [[withMessage "b"; withMessage "a"]])).2 !! 0
  = Some [withMessage "b"; withMessage "a"].
Proof.
  destruct (@X7_pipeline_leaves_existing_arrays ascii_host
              {| props := propsFor 0 None None false;
                 state := {| sortedList := 0; searchList := 0; selectedIndex := None;
                             sortBy := Some "message";
                             sortDirection := Some SORT_TYPES.DESC;
                             ignoreSearchIndex := false |} |}
              noOptions
              (storeOf [[withMessage "b"; withMessage "a"]])) as [Hkeep _].
  - intros f [= <-]. simpl. lia.
  - exact (Hkeep 0 _ eq_refl).
Defined.

(** X8: the displayed sequence is made of records of the log file.
    Whatever the options, the records [sortFilterList] returns are, up to
    their order, a sublist of the records of the log file: none is
    invented and none is shown more often than the log file has it. *)
Theorem X8_displayed_records_come_from_the_log `{Host} (this : LogTable)
    (o : SortFilterListOptions) (w : World) (f : LogFile) (R l : list LogEntry) :
  usedLogFile this o = Some f ->
  entryArrays w !! logEntries f = Some R ->
  evalEntries (sortFilterList this o) w = Ok l ->
  l ⊆+ R.
Proof.
  intros Hf HR. rewrite (evalEntries_sortFilterList _ _ _ _ _ Hf HR).
  intros (base & Hsub & ->)%pipeline_stages.
  etrans; [|by apply sublist_submseteq]. apply Permutation_submseteq.
  unfold reverseStage, sortStage.
  assert (Hsort : forall cmp, sorted_by cmp base ≡ₚ base)
    by (intros; apply sorted_by_Permutation).
  destruct (Js.opt_is (usedSortDirection this o) SORT_TYPES.DESC);
    rewrite <- ?Permutation_rev;
    destruct (Js.opt_is (usedSortBy this o) "index"
              || Js.opt_is (usedSortBy this o) "timestamp"); try done;
    destruct (Js.opt_is (usedSortBy this o) "message"); try done;
    destruct (Js.opt_is (usedSortBy this o) "level"); done.
Qed.

(** The theorem of X8 on a sort by message with a level filter. *)
Lemma X8_witness :
  [withLevel "info" "a"; withLevel "info" "b"]
  ⊆+ [withLevel "info" "b"; withLevel "warn" "c"; withLevel "info" "a"].
Proof.
  apply (@X8_displayed_records_come_from_the_log ascii_host
           {| props := propsFor 0 (Some {[ "info" := true; "warn" := false ]}) None false;
              state := {| sortedList := 0; searchList := 0; selectedIndex := None;
                          sortBy := Some "message";
                          sortDirection := Some SORT_TYPES.ASC;
                          ignoreSearchIndex := false |} |}
           noOptions
           (storeOf [[withLevel "info" "b"; withLevel "warn" "c"; withLevel "info" "a"]])
           {| logType := "browser"; logEntries := 0 |}).
  - reflexivity.
  - reflexivity.
  - vm_compute. reflexivity.
Defined.

(** X9: descending is the reverse of ascending.  For every sort key,
    level filter and search, the sequence [sortFilterList] returns for the
    direction DESC is the reverse of the one it returns for ASC, and it
    throws for the one exactly when it throws for the other. *)
Theorem X9_descending_is_reverse_of_ascending `{Host} (this : LogTable)
    (o : SortFilterListOptions) (w : World) (f : LogFile) (R : list LogEntry) :
  usedLogFile this o = Some f ->
  entryArrays w !! logEntries f = Some R ->
  evalEntries (sortFilterList this (withDirection SORT_TYPES.DESC o)) w
  = res_bind (evalEntries (sortFilterList this (withDirection SORT_TYPES.ASC o)) w)
      (fun l => Ok (rev l)).
Proof.
  intros Hf HR.
  rewrite !(evalEntries_sortFilterList _ _ _ f R) by done.
  unfold pipeline.
  change (usedFilter this (withDirection SORT_TYPES.DESC o)) with (usedFilter this o).
  change (usedFilter this (withDirection SORT_TYPES.ASC o)) with (usedFilter this o).
  change (usedSearch this (withDirection SORT_TYPES.DESC o)) with (usedSearch this o).
  change (usedSearch this (withDirection SORT_TYPES.ASC o)) with (usedSearch this o).
  change (usedShowOnly this (withDirection SORT_TYPES.DESC o)) with (usedShowOnly this o).
  change (usedShowOnly this (withDirection SORT_TYPES.ASC o)) with (usedShowOnly this o).
  change (usedSortBy this (withDirection SORT_TYPES.DESC o)) with (usedSortBy this o).
  change (usedSortBy this (withDirection SORT_TYPES.ASC o)) with (usedSortBy this o).
  destruct (filterStage this (usedFilter this o) R) as [l1|]; [|done]. simpl.
  by destruct (searchStage (usedSearch this o) (usedShowOnly this o) l1).
Qed.

(** The theorem of X9 on a sort by message. *)
Lemma X9_witness :
  evalEntries
    (sortFilterList
       {| props := propsFor 0 None None false;
          state := {| sortedList := 0; searchList := 0; selectedIndex := None;
                      sortBy := Some "message"; sortDirection := None;
                      ignoreSearchIndex := false |} |}
       (withDirection SORT_TYPES.DESC noOptions))
    (storeOf [[withMessage "b"; withMessage "a"; withMessage "c"]])
  = Ok [withMessage "c"; withMessage "b"; withMessage "a"].
Proof.
  pose proof (@X9_descending_is_reverse_of_ascending ascii_host
                {| props := propsFor 0 None None false;
                   state := {| sortedList := 0; searchList := 0; selectedIndex := None;
                               sortBy := Some "message"; sortDirection := None;
                               ignoreSearchIndex := false |} |}
                noOptions
                (storeOf [[withMessage "b"; withMessage "a"; withMessage "c"]])
                {| logType := "browser"; logEntries := 0 |}
                [withMessage "b"; withMessage "a"; withMessage "c"]
                eq_refl eq_refl) as Hthm.
  vm_compute in Hthm. vm_compute. exact Hthm.
Defined.

(** X10: sorting by message or by level sorts.  When the host's
    comparison is consistent ("not before" one way means "not after" the
    other way), the sort key is message or level and the direction is not
    DESC, each record [sortFilterList] returns is followed by one whose
    message, respectively level, does not compare before its own. *)
Theorem X10_sorted_by_message_or_level `{Host} (this : LogTable)
    (o : SortFilterListOptions) (w : World) (f : LogFile) (R l : list LogEntry) :
  (forall x y, localeCompare x y <> Lt -> localeCompare y x <> Gt) ->
  usedLogFile this o = Some f ->
  entryArrays w !! logEntries f = Some R ->
  usedSortDirection this o <> Some SORT_TYPES.DESC ->
  evalEntries (sortFilterList this o) w = Ok l ->
  (usedSortBy this o = Some "message" ->
     Sorted (fun a b => localeCompare (message a) (message b) <> Gt) l)
  /\ (usedSortBy this o = Some "level" ->
        Sorted (fun a b => localeCompare (level a) (level b) <> Gt) l).
Proof.
  intros Hanti Hf HR Hdir. rewrite (evalEntries_sortFilterList _ _ _ _ _ Hf HR).
  intros (base & _ & ->)%pipeline_stages.
  unfold reverseStage, Js.opt_is. rewrite (bool_decide_eq_false_2 _ Hdir).
  split; intros ->; unfold sortStage; simpl.
  - apply (sorted_by_Sorted doSortByMessage). intros a b. apply Hanti.
  - apply (sorted_by_Sorted doSortByLevel). intros a b. apply Hanti.
Qed.

(** The theorem of X10 on three messages; comparison by character code is
    consistent. *)
Lemma X10_witness :
  Sorted (fun a b => localeCompare (message a) (message b) <> Gt)
    [withMessage "a"; withMessage "b"; withMessage "c"].
Proof.
  refine (proj1 (@X10_sorted_by_message_or_level ascii_host
           {| props := propsFor 0 None None false;
              state := {| sortedList := 0; searchList := 0; selectedIndex := None;
                          sortBy := Some "message";
                          sortDirection := Some SORT_TYPES.ASC;
                          ignoreSearchIndex := false |} |}
           noOptions
           (storeOf [[withMessage "b"; withMessage "a"; withMessage "c"]])
           {| logType := "browser"; logEntries := 0 |}
           [withMessage "b"; withMessage "a"; withMessage "c"]
           [withMessage "a"; withMessage "b"; withMessage "c"]
           _ eq_refl eq_refl _ _) eq_refl).
  - intros x y Hxy Hyx. apply Hxy. simpl in *. unfold AsciiHost.codeCompare in *.
    by rewrite String.compare_antisym, Hyx.
  - discriminate.
  - vm_compute. reflexivity.
Defined.

(** X11: the other sort keys keep the order of the log file.  For a sort
    key other than message and level - index, timestamp, none or an
    unknown one - and a direction other than DESC, the displayed sequence
    is a sublist of the records of the log file, in their order there: no
    sort by timestamp or index takes place. *)
Theorem X11_other_keys_keep_log_order `{Host} (this : LogTable)
    (o : SortFilterListOptions) (w : World) (f : LogFile) (R l : list LogEntry) :
  usedLogFile this o = Some f ->
  entryArrays w !! logEntries f = Some R ->
  usedSortBy this o <> Some "message" ->
  usedSortBy this o <> Some "level" ->
  usedSortDirection this o <> Some SORT_TYPES.DESC ->
  evalEntries (sortFilterList this o) w = Ok l ->
  l `sublist_of` R.
Proof.
  intros Hf HR Hm Hl Hdir. rewrite (evalEntries_sortFilterList _ _ _ _ _ Hf HR).
  intros (base & Hsub & ->)%pipeline_stages.
  unfold reverseStage, sortStage, Js.opt_is.
  rewrite (bool_decide_eq_false_2 _ Hdir), (bool_decide_eq_false_2 _ Hm),
    (bool_decide_eq_false_2 _ Hl).
  by destruct (_ || _).
Qed.

(** The theorem of X11 on a sort by timestamp of entries whose timestamps
    are out of order. *)
Lemma X11_witness :
  [ {| index := 0; timestamp := "2017-02-02"; level := "info"; message := "later";
       entryLogType := "browser" |};
    {| index := 1; timestamp := "2017-01-01"; level := "info"; message := "earlier";
       entryLogType := "browser" |} ]
  `sublist_of`
  [ {| index := 0; timestamp := "2017-02-02"; level := "info"; message := "later";
       entryLogType := "browser" |};
    {| index := 1; timestamp := "2017-01-01"; level := "info"; message := "earlier";
       entryLogType := "browser" |} ].
Proof.
  apply (@X11_other_keys_keep_log_order ascii_host
           {| props := propsFor 0 None None false;
              state := {| sortedList := 0; searchList := 0; selectedIndex := None;
                          sortBy := Some "timestamp";
                          sortDirection := Some SORT_TYPES.ASC;
                          ignoreSearchIndex := false |} |}
           noOptions
           (storeOf [[ {| index := 0; timestamp := "2017-02-02"; level := "info";
                          message := "later"; entryLogType := "browser" |};
                       {| index := 1; timestamp := "2017-01-01"; level := "info";
                          message := "earlier"; entryLogType := "browser" |} ]])
           {| logType := "browser"; logEntries := 0 |}).
  - reflexivity.
  - reflexivity.
  - discriminate.
  - discriminate.
  - discriminate.
  - vm_compute. reflexivity.
Defined.

(** ** The component's handlers *)

Section HookProperties.

Context `{Host}.

(** A run of the hook that recomputes: the displayed sequence is what the
    pipeline yields for the received props, and the match list is built
    over that sequence. *)
Lemma componentWillReceiveProps_recompute (this : LogTable) (nextProps : LogTableProps)
    (w : World) (f : LogFile) (R : list LogEntry) :
  propsChangedAt w this nextProps = true ->
  usedLogFile this (receivedOptions nextProps) = Some f ->
  entryArrays w !! logEntries f = Some R ->
  match
    res_bind (pipeline this (receivedOptions nextProps) R) (fun l =>
    res_bind (matchList nextProps l) (fun found => Ok (l, found)))
  with
  | Ok (l, found) =>
      exists r sl w',
        run (componentWillReceiveProps this nextProps) w
        = (Ok (cursorMoved this nextProps
                 (setState (fun s => with_searchList sl (with_sortedList r s)) this)), w')
        /\ entriesAt w' r = l
        /\ numbersAt w' sl = found
        /\ length (numberArrays w) <= sl
        /\ started w w'
        /\ frame w w'
  | Throw e =>
      exists w', run (componentWillReceiveProps this nextProps) w = (Throw e, w')
                 /\ frame w w'
  end.
Proof.
  intros Hc Hf HR.
  pose proof (sortFilterList_result this (receivedOptions nextProps) w f R Hf HR) as Hres.
  destruct (sortFilterList_started this (receivedOptions nextProps) w) as [_ Hfr1].
  { intros f' Hf'. rewrite Hf in Hf'. injection Hf' as <-. by eapply lookup_lt_Some. }
  unfold run in *. unfold propsChangedAt, fileChangedAt in Hc.
  unfold componentWillReceiveProps.
  match goal with |- context [sortFilterList this ?o'] =>
    change o' with (receivedOptions nextProps) end.
  set (finish := fun updated : LogTable =>
    (if negb (bool_decide (searchIndex (props this) = searchIndex nextProps))
     then mret (setState (with_ignoreSearchIndex false) updated)
     else mret updated) : M LogTable).
  assert (Hk : forall t w2, finish t w2 = (Ok (cursorMoved this nextProps t), w2)).
  { intros t w2. unfold finish, cursorMoved.
    by destruct (negb (bool_decide (searchIndex (props this) = searchIndex nextProps))). }
  clearbody finish.
  assert (Hrest : forall (l : list LogEntry) (r : ref) (w1 : World),
    entriesAt w1 r = l -> frame w w1 -> started w w1 ->
    match res_bind (matchList nextProps l) (fun found => Ok (l, found)) with
    | Ok (l', found) =>
        exists sl w',
          ((newNumberArray [] ≫= fun searchList =>
            match search nextProps with
            | Some nextSearch =>
                if negb (showOnlySearchResults nextProps) && Js.truthy nextSearch then
                  debug "showOnlySearchResults is false, making search list";;
                  doSearchIndex nextSearch r
                else mret searchList
            | None => mret searchList
            end ≫= fun searchList =>
            mret (setState (fun s => with_searchList searchList
                                       (with_sortedList r s)) this)) ≫= finish) w1
          = (Ok (cursorMoved this nextProps
                   (setState (fun s => with_searchList sl (with_sortedList r s)) this)), w')
          /\ entriesAt w' r = l'
          /\ numbersAt w' sl = found
          /\ length (numberArrays w) <= sl
          /\ started w w'
          /\ frame w w'
    | Throw e =>
        exists w',
          ((newNumberArray [] ≫= fun searchList =>
            match search nextProps with
            | Some nextSearch =>
                if negb (showOnlySearchResults nextProps) && Js.truthy nextSearch then
                  debug "showOnlySearchResults is false, making search list";;
                  doSearchIndex nextSearch r
                else mret searchList
            | None => mret searchList
            end ≫= fun searchList =>
            mret (setState (fun s => with_searchList searchList
                                       (with_sortedList r s)) this)) ≫= finish) w1
          = (Throw e, w')
          /\ frame w w'
    end).
  { intros l r w1 Hl Hfr Hst. rewrite bind_assoc, bind_newNumberArray.
    set (w2 := set_numberArrays _ w1).
    assert (Hfr2 : frame w w2)
      by (etrans; [exact Hfr|]; split; simpl; try done; by apply prefix_app_r).
    pose proof (prefix_length _ _ (frame_numbers _ _ Hfr)) as Hlen.
    assert (Hplain :
      exists sl w',
        ((mret (length (numberArrays w1)) ≫= fun searchList =>
          mret (setState (fun s => with_searchList searchList
                                     (with_sortedList r s)) this)) ≫= finish) w2
        = (Ok (cursorMoved this nextProps
                 (setState (fun s => with_searchList sl (with_sortedList r s)) this)), w')
        /\ entriesAt w' r = l
        /\ numbersAt w' sl = []
        /\ length (numberArrays w) <= sl
        /\ started w w'
        /\ frame w w').
    { exists (length (numberArrays w1)), w2.
      rewrite bind_assoc, bind_mret, bind_mret, Hk.
      split; [done|]. split; [done|]. split.
      - unfold numbersAt; simpl. by rewrite lookup_app_r, Nat.sub_diag by lia.
      - split; [lia|]. split; [exact Hst|exact Hfr2]. }
    unfold matchList. destruct (search nextProps) as [s|]; [|exact Hplain].
    destruct (negb (showOnlySearchResults nextProps) && Js.truthy s); [|exact Hplain].
    clear Hplain. rewrite !bind_assoc, bind_debug. set (w3 := set_debugLog _ w2).
    assert (Hfr3 : frame w w3) by (etrans; [exact Hfr2|apply frame_debug]).
    pose proof (doSearchIndex_run s r w3) as Hidx. unfold run in Hidx.
    change (entriesAt w3 r) with (entriesAt w1 r) in Hidx. rewrite Hl in Hidx.
    rewrite run_bind.
    destruct (searchIndex_model s l) as [found|e]; simpl.
    - destruct Hidx as (w4 & Hrun4 & Hnum & Hent & Hfr4). rewrite Hrun4.
      rewrite bind_mret, Hk. exists (length (numberArrays w3)), w4.
      split; [done|]. split; [unfold entriesAt; by rewrite Hent|].
      split; [done|]. split; [subst w3 w2; simpl; rewrite length_app; simpl; lia|].
      split; [|by etrans]. eapply started_frame; [exact Hst|].
      etrans; [|exact Hfr4]. split; simpl; try done; by apply prefix_app_r.
    - destruct Hidx as (w4 & Hrun4 & Hfr4). rewrite Hrun4.
      exists w4. split; [done|by etrans]. }
  rewrite run_bind.
  destruct (logFile (props this)) as [f0|], (logFile nextProps) as [g|];
    rewrite ?bind_Array_length, ?bind_mret, ?run_mret; cbv beta iota;
    rewrite Hc, !bind_assoc, run_bind.
  all: destruct (pipeline this (receivedOptions nextProps) R) as [l|e]; simpl;
    [destruct Hres as (r & w1 & Hrun & Hl & _ & _ & Hst); rewrite Hrun in *
    |destruct Hres as (w1 & Hrun & _); rewrite Hrun in *; by exists w1].
  all: simpl in Hfr1; specialize (Hrest l r w1 Hl Hfr1 Hst).
  all: destruct (matchList nextProps l) as [found|e]; simpl in *.
  all: try (destruct Hrest as (sl & w' & Hrun' & Hrest); exists r, sl, w';
            split; [|exact Hrest]).
  all: try (destruct Hrest as (w' & Hrun' & Hrest); exists w'; split; [|exact Hrest]).
  all: rewrite <- Hrun'; repeat (rewrite bind_assoc); reflexivity.
Qed.

End HookProperties.

Lemma bind_readNumbers {B} (r : ref) (f : list nat -> M B) (w : World) :
  (readNumbers r ≫= f) w = f (numbersAt w r) w.
Proof. reflexivity. Qed.

Section HandlerProperties.

Context `{Host}.

Lemma matchList_bound (nextProps : LogTableProps) (l : list LogEntry) (found : list nat) :
  matchList nextProps l = Ok found -> Forall (fun i => i < length l) found.
Proof.
  unfold matchList, searchIndex_model.
  destruct (search nextProps) as [s|]; [|by intros [= <-]].
  destruct (negb (showOnlySearchResults nextProps) && Js.truthy s); [|by intros [= <-]].
  destruct (new_RegExp s) as [re|]; [|done].
  intros Hfound. apply Forall_forall. intros i Hi. by eapply indexTerms_bound.
Qed.

Lemma cursorMoved_state (this : LogTable) (nextProps : LogTableProps) (t : LogTable) :
  props (cursorMoved this nextProps t) = props t
  /\ sortedList (state (cursorMoved this nextProps t)) = sortedList (state t)
  /\ searchList (state (cursorMoved this nextProps t)) = searchList (state t)
  /\ sortBy (state (cursorMoved this nextProps t)) = sortBy (state t)
  /\ sortDirection (state (cursorMoved this nextProps t)) = sortDirection (state t)
  /\ selectedIndex (state (cursorMoved this nextProps t)) = selectedIndex (state t)
  /\ ignoreSearchIndex (state (cursorMoved this nextProps t))
     = (if decide (searchIndex (props this) = searchIndex nextProps)
        then ignoreSearchIndex (state t) else false).
Proof.
  unfold cursorMoved.
  destruct (decide (searchIndex (props this) = searchIndex nextProps)) as [Heq|Hne].
  - by rewrite (bool_decide_eq_true_2 _ Heq).
  - by rewrite (bool_decide_eq_false_2 _ Hne).
Qed.

(** React re-renders as soon as the match list is another array. *)
Lemma shouldComponentUpdate_new_searchList (this : LogTable) (nextProps : LogTableProps)
    (nextState : LogTableState) (w : World) :
  searchList (state this) <> searchList nextState ->
  run (shouldComponentUpdate this nextProps nextState) w = (Ok true, w).
Proof.
  intros Hne. unfold shouldComponentUpdate, run.
  destruct (negb (bool_decide (selectedIndex (state this) = selectedIndex nextState)));
    [done|].
  destruct (negb (bool_decide (dateTimeFormat (props this) = dateTimeFormat nextProps)));
    [done|].
  destruct (negb (bool_decide (sortBy nextState = sortBy (state this)))
            || negb (bool_decide (sortDirection nextState = sortDirection (state this))));
    [done|].
  rewrite (bool_decide_eq_false_2 _ Hne). simpl.
  destruct (logFile nextProps) as [g|], (logFile (props this)) as [f|];
    repeat (rewrite bind_assoc || rewrite bind_Array_length || rewrite bind_mret);
    repeat match goal with |- context [if ?c then _ else _] => destruct c end;
    reflexivity.
Qed.

End HandlerProperties.

(** X12: what the hook shows after a change.  When the received props
    differ in filter, search, only-show-matches or source, the hook
    displays what the pipeline yields for them - with the previous level
    filter, search text and log file wherever the new props carry none -
    and builds the match list over that displayed sequence: every position
    in it is a row of the displayed sequence, and it is empty unless a
    search text is highlighted.  Sort key, direction and selection stay,
    and the search cursor is followed again only if it moved.  If the
    pipeline or the index search throws, so does the hook. *)
Theorem X12_hook_rebuilds_both_lists `{Host} (this : LogTable)
    (nextProps : LogTableProps) (w : World) (f : LogFile) (R : list LogEntry) :
  propsChanged w this nextProps ->
  usedLogFile this (receivedOptions nextProps) = Some f ->
  entryArrays w !! logEntries f = Some R ->
  match
    res_bind (pipeline this (receivedOptions nextProps) R) (fun l =>
    res_bind (matchList nextProps l) (fun found => Ok (l, found)))
  with
  | Ok (l, found) =>
      exists this' w',
        run (componentWillReceiveProps this nextProps) w = (Ok this', w')
        /\ entriesAt w' (sortedList (state this')) = l
        /\ numbersAt w' (searchList (state this')) = found
        /\ Forall (fun i => i < length l) found
        /\ sortBy (state this') = sortBy (state this)
        /\ sortDirection (state this') = sortDirection (state this)
        /\ selectedIndex (state this') = selectedIndex (state this)
        /\ ignoreSearchIndex (state this')
           = (if decide (searchIndex (props this) = searchIndex nextProps)
              then ignoreSearchIndex (state this) else false)
  | Throw e =>
      exists w', run (componentWillReceiveProps this nextProps) w = (Throw e, w')
  end.
Proof.
  intros Hc%propsChangedAt_spec Hf HR.
  pose proof (componentWillReceiveProps_recompute this nextProps w f R Hc Hf HR) as Hrun.
  destruct (pipeline this (receivedOptions nextProps) R) as [l|e]; simpl in *.
  - destruct (matchList nextProps l) as [found|e] eqn:Hfound; simpl in *.
    + destruct Hrun as (r & sl & w' & Hrun & Hl & Hnum & _).
      eexists _, w'. split; [exact Hrun|].
      destruct (cursorMoved_state this nextProps
                  (setState (fun s => with_searchList sl (with_sortedList r s)) this))
        as (_ & -> & -> & -> & -> & -> & ->).
      simpl. repeat split; try done. by apply (matchList_bound nextProps).
    + destruct Hrun as (w' & Hrun & _). by exists w'.
  - destruct Hrun as (w' & Hrun & _). by exists w'.
Qed.

(** The theorem of X12 when the search text ["b"] starts being
    highlighted. *)
Lemma X12_witness :
  exists this' w',
    run (componentWillReceiveProps
           {| props := propsFor 0 None None false;
              state := {| sortedList := 0; searchList := 0; selectedIndex := None;
                          sortBy := Some "index"; sortDirection := Some SORT_TYPES.DESC;
                          ignoreSearchIndex := false |} |}
           (propsFor 0 None (Some "b") false))
      {| entryArrays := [[withMessage "a"; withMessage "b"; withMessage "c"]];
         numberArrays := [[]]; debugLog := [];
         sleuth := {| selectedEntry := None; isDetailsVisible := false |} |}
    = (Ok this', w')
    /\ entriesAt w' (sortedList (state this'))
       = [withMessage "c"; withMessage "b"; withMessage "a"]
    /\ numbersAt w' (searchList (state this')) = [1].
Proof.
  pose proof (@X12_hook_rebuilds_both_lists ascii_host
                {| props := propsFor 0 None None false;
                   state := {| sortedList := 0; searchList := 0; selectedIndex := None;
                               sortBy := Some "index";
                               sortDirection := Some SORT_TYPES.DESC;
                               ignoreSearchIndex := false |} |}
                (propsFor 0 None (Some "b") false)
                {| entryArrays := [[withMessage "a"; withMessage "b"; withMessage "c"]];
                   numberArrays := [[]]; debugLog := [];
                   sleuth := {| selectedEntry := None; isDetailsVisible := false |} |}
                {| logType := "browser"; logEntries := 0 |}
                [withMessage "a"; withMessage "b"; withMessage "c"]) as Hthm.
  specialize (Hthm ltac:(right; left; discriminate) eq_refl eq_refl).
  vm_compute in Hthm. destruct Hthm as (this' & w' & Hrun & Hl & Hnum & _).
  exists this', w'. vm_compute. by repeat split.
Defined.

(** X13: a recomputation is always rendered.  When the hook recomputes
    and returns, the match list of the new state is an array that did not
    exist before, so [shouldComponentUpdate] asks for a re-render whatever
    else changed. *)
Theorem X13_recompute_is_rendered `{Host} (this : LogTable)
    (nextProps : LogTableProps) (w : World) (f : LogFile) (R : list LogEntry)
    (this' : LogTable) (w' : World) :
  propsChanged w this nextProps ->
  usedLogFile this (receivedOptions nextProps) = Some f ->
  entryArrays w !! logEntries f = Some R ->
  searchList (state this) < length (numberArrays w) ->
  run (componentWillReceiveProps this nextProps) w = (Ok this', w') ->
  length (numberArrays w) <= searchList (state this')
  /\ run (shouldComponentUpdate this nextProps (state this')) w' = (Ok true, w').
Proof.
  intros Hc%propsChangedAt_spec Hf HR Hold Hrun'.
  pose proof (componentWillReceiveProps_recompute this nextProps w f R Hc Hf HR) as Hrun.
  assert (Hnew : length (numberArrays w) <= searchList (state this')).
  { destruct (pipeline this (receivedOptions nextProps) R) as [l|e]; simpl in *.
    - destruct (matchList nextProps l) as [found|e]; simpl in *.
      + destruct Hrun as (r & sl & w1 & Hrun & _ & _ & Hsl & _).
        rewrite Hrun' in Hrun. injection Hrun as -> <-.
        by destruct (cursorMoved_state this nextProps
                       (setState (fun s => with_searchList sl (with_sortedList r s)) this))
          as (_ & _ & -> & _).
      + destruct Hrun as (w1 & Hrun & _). by rewrite Hrun' in Hrun.
    - destruct Hrun as (w1 & Hrun & _). by rewrite Hrun' in Hrun. }
  split; [done|]. apply shouldComponentUpdate_new_searchList. lia.
Qed.

(** The theorem of X13 when the only-show-matches flag is switched on. *)
Lemma X13_witness :
  run (shouldComponentUpdate
         {| props := propsFor 0 None None false;
            state := {| sortedList := 0; searchList := 0; selectedIndex := None;
                        sortBy := Some "index"; sortDirection := Some SORT_TYPES.ASC;
                        ignoreSearchIndex := false |} |}
         (propsFor 0 None None true)
         {| sortedList := 0; searchList := 1; selectedIndex := None;
            sortBy := Some "index"; sortDirection := Some SORT_TYPES.ASC;
            ignoreSearchIndex := false |})
    {| entryArrays := [[withMessage "a"]]; numberArrays := [[]; []];
       debugLog := ["Starting filter"];
       sleuth := {| selectedEntry := None; isDetailsVisible := false |} |}
  = (Ok true,
     {| entryArrays := [[withMessage "a"]]; numberArrays := [[]; []];
        debugLog := ["Starting filter"];
        sleuth := {| selectedEntry := None; isDetailsVisible := false |} |}).
Proof.
  pose proof (@X13_recompute_is_rendered ascii_host
                {| props := propsFor 0 None None false;
                   state := {| sortedList := 0; searchList := 0; selectedIndex := None;
                               sortBy := Some "index";
                               sortDirection := Some SORT_TYPES.ASC;
                               ignoreSearchIndex := false |} |}
                (propsFor 0 None None true)
                {| entryArrays := [[withMessage "a"]]; numberArrays := [[]];
                   debugLog := [];
                   sleuth := {| selectedEntry := None; isDetailsVisible := false |} |}
                {| logType := "browser"; logEntries := 0 |}
                [withMessage "a"]
                {| props := propsFor 0 None None false;
                   state := {| sortedList := 0; searchList := 1; selectedIndex := None;
                               sortBy := Some "index";
                               sortDirection := Some SORT_TYPES.ASC;
                               ignoreSearchIndex := false |} |}
                {| entryArrays := [[withMessage "a"]]; numberArrays := [[]; []];
                   debugLog := ["Starting filter"];
                   sleuth := {| selectedEntry := None; isDetailsVisible := false |} |})
    as Hthm.
  specialize (Hthm ltac:(right; right; left; discriminate) eq_refl eq_refl).
  specialize (Hthm ltac:(simpl; lia) ltac:(vm_compute; reflexivity)).
  exact (proj2 Hthm).
Defined.

(** X14: a click on a column header always sorts anew.  The direction a
    header asks for is ASC when the table is sorted DESC and DESC in every
    other case, so it never equals the current one: the pipeline runs on
    every click, also on the header of the column already sorted by and on
    a first click on another column, whose order then starts descending.
    When the call returns, the table is sorted by the clicked column in
    that direction, the clicked header shows the arrow of the direction
    and the other headers show none. *)
Theorem X14_header_click_sorts_anew `{Host} (sortKey : string) (table : LogTable)
    (w : World) :
  (forall f, logFile (props table) = Some f -> logEntries f < length (entryArrays w)) ->
  let direction :=
    if bool_decide (sortDirection (state table) = Some SORT_TYPES.DESC)
    then SORT_TYPES.ASC else SORT_TYPES.DESC in
  started w (run (LogTableHeaderCell.onSortChange sortKey table) w).2
  /\ forall table' w',
       run (LogTableHeaderCell.onSortChange sortKey table) w = (Ok table', w') ->
       sortBy (state table') = Some sortKey
       /\ sortDirection (state table') = Some direction
       /\ LogTableHeaderCell.sortIndicator sortKey table'
          = (if bool_decide (direction = SORT_TYPES.DESC) then "↓" else "↑")
       /\ forall other, other <> sortKey ->
            LogTableHeaderCell.sortIndicator other table' = "".
Proof.
  intros Hvalid direction.
  assert (Hdir : LogTableHeaderCell.onSortChange sortKey table
                 = onSortChange table sortKey direction).
  { unfold LogTableHeaderCell.onSortChange, direction,
      LogTableHeaderCell.reverseSortDirection, Js.str_eq, SORT_TYPES.DESC, SORT_TYPES.ASC.
    f_equal. destruct (sortDirection (state table)) as [[|c d]|]; try done.
    simpl. repeat case_bool_decide; simplify_eq; done. }
  assert (Hnew : sortDirection (state table) <> Some direction).
  { unfold direction, SORT_TYPES.DESC, SORT_TYPES.ASC.
    case_bool_decide as Hd; [by rewrite Hd|done]. }
  rewrite Hdir. split; [apply onSortChange_new; [done|by right]|].
  intros table' w'. unfold onSortChange, run.
  rewrite (bool_decide_eq_false_2 _ Hnew), orb_true_r, run_bind.
  destruct (sortFilterList _ _ w) as [[r|e] w1]; [|done].
  intros [= <- <-]. unfold LogTableHeaderCell.sortIndicator. simpl.
  split; [done|]. split; [done|]. split.
  - rewrite bool_decide_eq_true_2 by done.
    unfold direction, Js.opt_is, SORT_TYPES.DESC, SORT_TYPES.ASC.
    repeat case_bool_decide; simplify_eq; done.
  - intros other Hother. rewrite (bool_decide_eq_false_2 (Some sortKey = Some other));
      [by rewrite andb_false_r|congruence].
Qed.

(** The theorem of X14 on a first click on the message column. *)
Lemma X14_witness :
  sortBy (state
    {| props := propsFor 0 None None false;
       state := {| sortedList := 1; searchList := 0; selectedIndex := None;
                   sortBy := Some "message"; sortDirection := Some SORT_TYPES.DESC;
                   ignoreSearchIndex := false |} |}) = Some "message"
  /\ LogTableHeaderCell.sortIndicator "message"
       {| props := propsFor 0 None None false;
          state := {| sortedList := 1; searchList := 0; selectedIndex := None;
                      sortBy := Some "message"; sortDirection := Some SORT_TYPES.DESC;
                      ignoreSearchIndex := false |} |} = "↓".
Proof.
  destruct (@X14_header_click_sorts_anew ascii_host "message"
              {| props := propsFor 0 None None false;
                 state := {| sortedList := 0; searchList := 0; selectedIndex := None;
                             sortBy := Some "index"; sortDirection := Some SORT_TYPES.ASC;
                             ignoreSearchIndex := false |} |}
              (storeOf [[withMessage "b"; withMessage "a"]])) as [_ Hclick].
  - intros f [= <-]. simpl. lia.
  - destruct (Hclick
                {| props := propsFor 0 None None false;
                   state := {| sortedList := 1; searchList := 0; selectedIndex := None;
                               sortBy := Some "message";
                               sortDirection := Some SORT_TYPES.DESC;
                               ignoreSearchIndex := false |} |}
                {| entryArrays := [[withMessage "b"; withMessage "a"];
                                   [withMessage "b"; withMessage "a"]];
                   numberArrays := [];
                   debugLog := ["Starting filter"; "Sorting by message"; "Reversing"];
                   sleuth := {| selectedEntry := None; isDetailsVisible := false |} |}
                ltac:(vm_compute; reflexivity)) as (Hby & _ & Harrow & _).
    split; [exact Hby|exact Harrow].
Defined.

(** X15: a row click selects the row and stops following the search
    cursor.  A click on row [index] always succeeds, runs no pipeline and
    changes no array; the shared application state then holds the
    displayed record of that row - none when the index is past the last
    row - with the details pane visible; the row is drawn as the active
    row and the table is no longer told a row to scroll to. *)
Theorem X15_row_click_selects_and_stops_scrolling `{Host} (this : LogTable)
    (index : nat) (w : World) :
  exists this' w',
    run (onRowClick this index) w = (Ok this', w')
    /\ entryArrays w' = entryArrays w
    /\ numberArrays w' = numberArrays w
    /\ debugLog w' = debugLog w
    /\ selectedEntry (sleuth w') = entriesAt w (sortedList (state this)) !! index
    /\ (selectedEntry (sleuth w') = None
        <-> length (entriesAt w (sortedList (state this))) <= index)
    /\ isDetailsVisible (sleuth w') = true
    /\ run (rowClassNameGetter this' index) w' = (Ok "ActiveRow", w')
    /\ exists options,
         run (tableOptions this') w' = (Ok options, w')
         /\ scrollToRow options = None
         /\ rowsCount options = length (entriesAt w (sortedList (state this))).
Proof.
  exists (setState (fun s => with_ignoreSearchIndex true
                               (with_selectedIndex (Some index) s)) this),
         (set_sleuth {| selectedEntry := entriesAt w (sortedList (state this)) !! index;
                        isDetailsVisible := true |} w).
  split; [done|]. do 4 (split; [done|]). split; [apply lookup_ge_None|].
  split; [done|]. split.
  - unfold rowClassNameGetter, run. rewrite bind_readNumbers. simpl.
    by rewrite (bool_decide_eq_true_2 (Some index = Some index)).
  - eexists. split; [reflexivity|]. by split.
Qed.

(** X16: a move of the search cursor is followed again.  When the
    received props differ from the previous ones in nothing the hook
    compares but the search cursor, no list is rebuilt, and - even after a
    row click - the table is told to scroll to the match the cursor points
    at, or to row 0 if it points past the match list; that match is drawn
    as the active row. *)
Theorem X16_cursor_move_is_followed `{Host} (this : LogTable)
    (nextProps : LogTableProps) (w : World) :
  ~ propsChanged w this nextProps ->
  searchIndex (props this) <> searchIndex nextProps ->
  exists this',
    run (receiveProps this nextProps) w = (Ok this', w)
    /\ props this' = nextProps
    /\ sortedList (state this') = sortedList (state this)
    /\ searchList (state this') = searchList (state this)
    /\ (exists options,
          run (tableOptions this') w = (Ok options, w)
          /\ scrollToRow options
             = Some (default 0 (numbersAt w (searchList (state this))
                                  !! searchIndex nextProps)))
    /\ forall row,
         numbersAt w (searchList (state this)) !! searchIndex nextProps = Some row ->
         run (rowClassNameGetter this' row) w = (Ok "ActiveRow", w).
Proof.
  intros Hsame Hmoved.
  assert (Hc : propsChangedAt w this nextProps = false).
  { destruct (propsChangedAt w this nextProps) eqn:Hc; [|done].
    by apply propsChangedAt_spec in Hc. }
  pose proof (componentWillReceiveProps_unchanged this nextProps w Hc) as Hrun.
  unfold cursorMoved in Hrun. rewrite (bool_decide_eq_false_2 _ Hmoved) in Hrun.
  unfold run in *. simpl in Hrun.
  eexists. split; [unfold receiveProps; by rewrite run_bind, Hrun|].
  simpl. do 3 (split; [done|]). split.
  - eexists. split; [reflexivity|done].
  - intros row Hrow. unfold rowClassNameGetter. rewrite bind_readNumbers. simpl.
    by rewrite (bool_decide_eq_true_2 _ Hrow).
Qed.

(** The theorem of X16 after a row click, with two matches. *)
Lemma X16_witness :
  exists this',
    run (receiveProps
           {| props := propsFor 0 None (Some "a") false;
              state := {| sortedList := 0; searchList := 0; selectedIndex := Some 1;
                          sortBy := Some "index"; sortDirection := Some SORT_TYPES.ASC;
                          ignoreSearchIndex := true |} |}
           {| logFile := Some {| logType := "browser"; logEntries := 0 |};
              levelFilter := None; search := Some "a"; dateTimeFormat := "HH:mm:ss";
              showOnlySearchResults := false; searchIndex := 1 |})
      {| entryArrays := [[withMessage "a"; withMessage "b"; withMessage "a"]];
         numberArrays := [[0; 2]]; debugLog := [];
         sleuth := {| selectedEntry := None; isDetailsVisible := false |} |}
    = (Ok this',
       {| entryArrays := [[withMessage "a"; withMessage "b"; withMessage "a"]];
          numberArrays := [[0; 2]]; debugLog := [];
          sleuth := {| selectedEntry := None; isDetailsVisible := false |} |})
    /\ ignoreSearchIndex (state this') = false.
Proof.
  destruct (@X16_cursor_move_is_followed ascii_host
              {| props := propsFor 0 None (Some "a") false;
                 state := {| sortedList := 0; searchList := 0; selectedIndex := Some 1;
                             sortBy := Some "index"; sortDirection := Some SORT_TYPES.ASC;
                             ignoreSearchIndex := true |} |}
              {| logFile := Some {| logType := "browser"; logEntries := 0 |};
                 levelFilter := None; search := Some "a"; dateTimeFormat := "HH:mm:ss";
                 showOnlySearchResults := false; searchIndex := 1 |}
              {| entryArrays := [[withMessage "a"; withMessage "b"; withMessage "a"]];
                 numberArrays := [[0; 2]]; debugLog := [];
                 sleuth := {| selectedEntry := None; isDetailsVisible := false |} |})
    as (this' & Hrun & _).
  - unfold propsChanged, sourceChanged. simpl. intuition congruence.
  - simpl. lia.
  - exists this'. split; [exact Hrun|].
    vm_compute in Hrun. by injection Hrun as <-.
Defined.

(** X17: a sort change does not rebuild the match list.  Whatever
    [onSortChange] does to the displayed sequence, the state it returns
    still refers to the same match list, holding the same positions,
    selection and cursor handling included: the positions keep pointing at
    the rows the matches had before the rows were reordered. *)
Theorem X17_sort_change_keeps_match_list `{Host} (this : LogTable)
    (sortBy' sortDirection' : string) (w : World) (this' : LogTable) (w' : World) :
  (forall f, logFile (props this) = Some f -> logEntries f < length (entryArrays w)) ->
  searchList (state this) < length (numberArrays w) ->
  run (onSortChange this sortBy' sortDirection') w = (Ok this', w') ->
  searchList (state this') = searchList (state this)
  /\ numbersAt w' (searchList (state this')) = numbersAt w (searchList (state this))
  /\ selectedIndex (state this') = selectedIndex (state this)
  /\ ignoreSearchIndex (state this') = ignoreSearchIndex (state this).
Proof.
  intros Hvalid Hsl. unfold onSortChange, run.
  destruct (negb (bool_decide (sortBy (state this) = Some sortBy'))
            || negb (bool_decide (sortDirection (state this) = Some sortDirection'))).
  - rewrite run_bind.
    match goal with |- context [sortFilterList this ?o'] => set (o := o') end.
    destruct (sortFilterList_started this o w Hvalid) as [_ Hfr]. unfold run in Hfr.
    destruct (sortFilterList this o w) as [[r|e] w1]; [|done].
    intros [= <- <-]. simpl. split; [done|]. split; [|done].
    destruct (frame_numbers _ _ Hfr) as [k Hk]. simpl in Hk.
    unfold numbersAt. by rewrite Hk, lookup_app_l.
  - by intros [= <- <-].
Qed.

(** The theorem of X17 on a table highlighting the matches of ["a"]: after
    the sort by message, descending, row 0 shows b and is still the one
    listed as a match. *)
Lemma X17_witness :
  numbersAt
    {| entryArrays := [[withMessage "a"; withMessage "b"];
                       [withMessage "b"; withMessage "a"]];
       numberArrays := [[0]];
       debugLog := ["Starting filter"; "Sorting by message"; "Reversing"];
       sleuth := {| selectedEntry := None; isDetailsVisible := false |} |} 0
  = [0].
Proof.
  pose proof (@X17_sort_change_keeps_match_list ascii_host
                {| props := propsFor 0 None (Some "a") false;
                   state := {| sortedList := 0; searchList := 0; selectedIndex := None;
                               sortBy := Some "index";
                               sortDirection := Some SORT_TYPES.ASC;
                               ignoreSearchIndex := false |} |}
                "message" SORT_TYPES.DESC
                {| entryArrays := [[withMessage "a"; withMessage "b"]];
                   numberArrays := [[0]]; debugLog := [];
                   sleuth := {| selectedEntry := None; isDetailsVisible := false |} |}
                {| props := propsFor 0 None (Some "a") false;
                   state := {| sortedList := 1; searchList := 0; selectedIndex := None;
                               sortBy := Some "message";
                               sortDirection := Some SORT_TYPES.DESC;
                               ignoreSearchIndex := false |} |}
                {| entryArrays := [[withMessage "a"; withMessage "b"];
                                   [withMessage "b"; withMessage "a"]];
                   numberArrays := [[0]];
                   debugLog := ["Starting filter"; "Sorting by message"; "Reversing"];
                   sleuth := {| selectedEntry := None; isDetailsVisible := false |} |})
    as Hthm.
  specialize (Hthm ltac:(intros f [= <-]; simpl; lia) ltac:(simpl; lia)
                ltac:(vm_compute; reflexivity)).
  exact (proj1 (proj2 Hthm)).
Defined.
